(** * Dynamic tool runtime: validation, content addressing and tool lifecycle

    A shallow embedding of the Python sources under [src/]:
    - [storage/artifact_storage.py]   (content hash, artifact cache over S3)
    - [validation/*.py]               (analyzers' resource estimate, policy
                                       evaluator, validation cache and service)
    - [repositories/tool_repository.py], [agentcore/tool_lifecycle.py]
                                      (tool index over DynamoDB, the
                                       register / update / deregister sagas)

    Conventions.  A Python [str] is a Rocq [string] whose characters stand for
    the code points U+0000..U+00FF.  Python [int] is [Z]; Python [float] is a
    binary64 primitive float.  Effects (S3 bucket, DynamoDB table, gateway
    calls, raised exceptions) are threaded through an explicit state and
    exception monad. *)

From Stdlib Require Import ZArith Ascii String.
From Stdlib Require Import Floats.PrimFloat Floats.SpecFloat Floats.FloatOps.
From Stdlib Require Import Floats.FloatAxioms.
From Stdlib Require Import Numbers.Cyclic.Int63.Uint63.
From stdpp Require Import gmap strings list fin_maps pretty.

#[local] Set Warnings "-inexact-float,-register-all".
#[local] Open Scope Z_scope.

(* ===================================================================== *)
(** ** Text: character classes, [str.strip], UTF-8 *)
(* ===================================================================== *)

Module Text.

Definition code_point (c : ascii) : Z := Z.of_N (N_of_ascii c).

(** [str.isspace] on U+0000..U+00FF; the class [\s] of [re] agrees. *)
Definition isspace (c : ascii) : bool :=
  let n := code_point c in
  ((9 <=? n) && (n <=? 13)) || ((28 <=? n) && (n <=? 32))
  || (n =? 133) || (n =? 160).

(** The class [\w] of [re] on U+0000..U+00FF: alphanumerics and [_]. *)
Definition isword (c : ascii) : bool :=
  let n := code_point c in
  ((48 <=? n) && (n <=? 57)) || ((65 <=? n) && (n <=? 90)) || (n =? 95)
  || ((97 <=? n) && (n <=? 122))
  || (n =? 170) || (n =? 178) || (n =? 179) || (n =? 181)
  || ((185 <=? n) && (n <=? 186)) || ((188 <=? n) && (n <=? 190))
  || ((192 <=? n) && (n <=? 214)) || ((216 <=? n) && (n <=? 246))
  || (248 <=? n).

Fixpoint lstrip (s : string) : string :=
  match s with
  | String c s' => if isspace c then lstrip s' else s
  | EmptyString => EmptyString
  end.

Fixpoint rstrip (s : string) : string :=
  match s with
  | String c s' =>
      match rstrip s' with
      | EmptyString => if isspace c then EmptyString else String c EmptyString
      | r => String c r
      end
  | EmptyString => EmptyString
  end.

(** [s.strip()] *)
Definition strip (s : string) : string := rstrip (lstrip s).

(** Truth value of a [str]: non-empty. *)
Definition truthy (s : string) : bool :=
  match s with EmptyString => false | _ => true end.

(** [not s or not s.strip()] *)
Definition blank (s : string) : bool :=
  negb (truthy s) || negb (truthy (strip s)).

(** [s.encode("utf-8")], one or two bytes per code point below U+0100. *)
Definition utf8_char (c : ascii) : list Z :=
  let n := code_point c in
  if n <? 128 then [n] else [192 + n / 64; 128 + n mod 64].

Fixpoint utf8 (s : string) : list Z :=
  match s with
  | String c s' => utf8_char c ++ utf8 s'
  | EmptyString => []
  end.

(** [s.count(c)] for a one-character needle. *)
Fixpoint count_char (c : ascii) (s : string) : Z :=
  match s with
  | String d s' => (if Ascii.eqb c d then 1 else 0) + count_char c s'
  | EmptyString => 0
  end.

(** [s.split("\n")] *)
Fixpoint split_lines_acc (cur : string) (s : string) : list string :=
  match s with
  | String c s' =>
      if Ascii.eqb c "010"%char
      then String.rev cur :: split_lines_acc EmptyString s'
      else split_lines_acc (String c cur) s'
  | EmptyString => [String.rev cur]
  end.

Definition split_lines (s : string) : list string :=
  split_lines_acc EmptyString s.

End Text.

(* ===================================================================== *)
(** ** [hashlib.sha256(...).hexdigest()] (FIPS 180-4) *)
(* ===================================================================== *)

Module SHA256.

Definition w32 : Z := 4294967296.
Definition add32 (a b : Z) : Z := (a + b) mod w32.
Definition rotr (n x : Z) : Z :=
  Z.lor (Z.shiftr x n) (Z.shiftl x (32 - n) mod w32).
Definition not32 (x : Z) : Z := Z.lxor x 4294967295.

Definition Ch (x y z : Z) : Z := Z.lxor (Z.land x y) (Z.land (not32 x) z).
Definition Maj (x y z : Z) : Z :=
  Z.lxor (Z.lxor (Z.land x y) (Z.land x z)) (Z.land y z).
Definition bsig0 (x : Z) : Z := Z.lxor (Z.lxor (rotr 2 x) (rotr 13 x)) (rotr 22 x).
Definition bsig1 (x : Z) : Z := Z.lxor (Z.lxor (rotr 6 x) (rotr 11 x)) (rotr 25 x).
Definition ssig0 (x : Z) : Z := Z.lxor (Z.lxor (rotr 7 x) (rotr 18 x)) (Z.shiftr x 3).
Definition ssig1 (x : Z) : Z := Z.lxor (Z.lxor (rotr 17 x) (rotr 19 x)) (Z.shiftr x 10).

(** The round constants and the initial hash value are the first 32 bits
    of the fractional parts of the cube roots, respectively square roots, of
    the first primes.  [iroot k bits 0 n] is the integer [k]-th root of [n],
    found bit by bit from the top. *)
Fixpoint iroot (k : Z) (bits : nat) (r n : Z) : Z :=
  match bits with
  | O => r
  | S b =>
      let c := r + 2 ^ Z.of_nat b in
      if c ^ k <=? n then iroot k b c n else iroot k b r n
  end.

Definition frac_root (k : Z) (p : Z) : Z :=
  iroot k 40 0 (p * 2 ^ (32 * k)) mod w32.

Definition primes : list Z :=
  [ 2; 3; 5; 7; 11; 13; 17; 19; 23; 29; 31; 37; 41; 43; 47; 53; 59; 61; 67; 71;
    73; 79; 83; 89; 97; 101; 103; 107; 109; 113; 127; 131; 137; 139; 149; 151;
    157; 163; 167; 173; 179; 181; 191; 193; 197; 199; 211; 223; 227; 229; 233;
    239; 241; 251; 257; 263; 269; 271; 277; 281; 283; 293; 307; 311 ].

Definition K : list Z := Eval vm_compute in map (frac_root 3) primes.

Definition H0 : list Z := Eval vm_compute in map (frac_root 2) (take 8 primes).

(** Padding: one [0x80], zeros up to 56 mod 64, the bit length on 8 bytes. *)
Definition be_bytes (n : nat) (x : Z) : list Z :=
  map (fun i => Z.shiftr x (8 * Z.of_nat i) mod 256) (rev (seq 0 n)).

Definition pad (msg : list Z) : list Z :=
  let len := Z.of_nat (length msg) in
  let zeros := Z.to_nat ((55 - len) mod 64) in
  msg ++ [128] ++ repeat 0 zeros ++ be_bytes 8 (8 * len).

Fixpoint words (fuel : nat) (bs : list Z) : list Z :=
  match fuel, bs with
  | S f, b0 :: b1 :: b2 :: b3 :: rest =>
      (b0 * 16777216 + b1 * 65536 + b2 * 256 + b3) :: words f rest
  | _, _ => []
  end.

Fixpoint blocks (fuel : nat) (ws : list Z) : list (list Z) :=
  match fuel, ws with
  | S f, _ :: _ => take 16 ws :: blocks f (drop 16 ws)
  | _, _ => []
  end.

Definition nthw (w : list Z) (i : nat) : Z := nth i w 0.

(** Message schedule: [n] further words appended to the block's sixteen. *)
Fixpoint schedule (n : nat) (w : list Z) : list Z :=
  match n with
  | O => w
  | S n' =>
      let t := length w in
      let x := add32 (add32 (ssig1 (nthw w (t - 2))) (nthw w (t - 7)))
                     (add32 (ssig0 (nthw w (t - 15))) (nthw w (t - 16))) in
      schedule n' (w ++ [x])
  end.

Definition round (st : list Z) (kw : Z * Z) : list Z :=
  match st with
  | [a; b; c; d; e; f; g; h] =>
      let t1 := add32 (add32 (add32 h (bsig1 e)) (add32 (Ch e f g) (fst kw))) (snd kw) in
      let t2 := add32 (bsig0 a) (Maj a b c) in
      [add32 t1 t2; a; b; c; add32 d t1; e; f; g]
  | _ => st
  end.

Definition compress (h : list Z) (block : list Z) : list Z :=
  let w := schedule 48 block in
  let st := fold_left round (combine K w) h in
  map (fun p => add32 (fst p) (snd p)) (combine h st).

Definition digest (msg : list Z) : list Z :=
  let bs := pad msg in
  let ws := words (length bs) bs in
  fold_left compress (blocks (length ws) ws) H0.

Definition hex_digit (n : Z) : ascii :=
  if n <? 10 then ascii_of_N (Z.to_N (48 + n)) else ascii_of_N (Z.to_N (87 + n)).

Definition hex_word (x : Z) : string :=
  fold_right (fun i acc => String (hex_digit (Z.shiftr x (4 * Z.of_nat i) mod 16)) acc)
             EmptyString (rev (seq 0 8)).

Definition hexdigest (msg : list Z) : string :=
  fold_right (fun x acc => String.append (hex_word x) acc) EmptyString (digest msg).

End SHA256.

(* ===================================================================== *)
(** ** validation/validation_result.py *)
(* ===================================================================== *)

(** A formatted string before rendering: the literal parts and the
    interpolated values of an f-string, in order.  A plain [str] is one
    [Lit]. *)
Inductive piece : Type :=
| Lit (s : string)
| Int (n : Z)
| Flt (x : float).

Definition fstring : Type := list piece.

Inductive SeverityLevel : Type := LOW | MEDIUM | HIGH | CRITICAL.

Definition severity_value (s : SeverityLevel) : string :=
  match s with
  | LOW => "low" | MEDIUM => "medium" | HIGH => "high" | CRITICAL => "critical"
  end.

Definition is_critical (s : SeverityLevel) : bool :=
  match s with CRITICAL => true | _ => false end.

Module SecurityIssue.
Record t : Type := mk {
  severity : SeverityLevel;
  issue_type : string;
  message : string;
  line_number : option Z;
  code_snippet : option string;
}.
End SecurityIssue.

Module ResourceEstimate.
Record t : Type := mk {
  estimated_memory_mb : Z;
  estimated_cpu_seconds : float;
  complexity_score : Z;
  has_loops : bool;
  has_recursion : bool;
  max_depth : Z;
}.
End ResourceEstimate.

Module ValidationResult.
Record t : Type := mk {
  is_valid : bool;
  language : string;
  code_hash : string;
  errors : list string;
  warnings : list string;
  security_issues : list SecurityIssue.t;
  resource_estimate : option ResourceEstimate.t;
  validation_timestamp : option string;
}.

Definition has_critical_issues (r : t) : bool :=
  existsb (fun issue => is_critical (SecurityIssue.severity issue))
          (security_issues r).

Definition set_is_valid (b : bool) (r : t) : t :=
  mk b (language r) (code_hash r) (errors r) (warnings r)
     (security_issues r) (resource_estimate r) (validation_timestamp r).

Definition set_validation_timestamp (ts : option string) (r : t) : t :=
  mk (is_valid r) (language r) (code_hash r) (errors r) (warnings r)
     (security_issues r) (resource_estimate r) ts.
End ValidationResult.

(* ===================================================================== *)
(** ** validation/security_policy.py *)
(* ===================================================================== *)

Inductive PolicyViolationType : Type :=
| FILE_SYSTEM_ACCESS | NETWORK_ACCESS | SYSTEM_CALL
| DANGEROUS_FUNCTION | RESOURCE_LIMIT | PROHIBITED_IMPORT.

Module PolicyRule.
Record t : Type := mk {
  rule_id : string;
  rule_type : PolicyViolationType;
  description : string;
  severity : string;
  patterns : list string;
  allowed_exceptions : list string;
}.
End PolicyRule.

Module ResourceLimits.
Record t : Type := mk {
  max_memory_mb : Z;
  max_cpu_seconds : float;
  max_complexity : Z;
  max_nesting_depth : Z;
  allow_loops : bool;
  allow_recursion : bool;
}.
End ResourceLimits.

Module SecurityPolicy.
Record t : Type := mk {
  policy_id : string;
  policy_name : string;
  version : string;
  rules : list PolicyRule.t;
  resource_limits : ResourceLimits.t;
  prohibited_modules : gset string;
  prohibited_functions : gset string;
  allowed_file_operations : list string;
  allowed_network_domains : list string;
}.
End SecurityPolicy.

Module PolicyViolation.
Record t : Type := mk {
  violation_type : PolicyViolationType;
  rule_id : string;
  severity : string;
  message : fstring;
  line_number : option Z;
  code_snippet : option string;
  remediation : option string;
}.
End PolicyViolation.

Module SecurityPolicyManager.

Definition python_prohibited : gset string :=
  list_to_set
    [ "os"; "subprocess"; "socket"; "urllib"; "urllib2"; "urllib3";
      "requests"; "http"; "httplib"; "ftplib"; "telnetlib";
      "smtplib"; "poplib"; "imaplib"; "__import__"; "importlib";
      "sys"; "ctypes"; "multiprocessing"; "threading"; "asyncio" ]%string.

Definition js_prohibited : gset string :=
  list_to_set
    [ "fs"; "child_process"; "net"; "http"; "https"; "dgram";
      "dns"; "tls"; "crypto"; "os"; "process"; "cluster";
      "worker_threads"; "vm" ]%string.

Definition prohibited_functions : gset string :=
  list_to_set
    [ "eval"; "exec"; "compile"; "__import__"; "open"; "input";
      "Function"; "require"; "import"; "XMLHttpRequest"; "fetch";
      "WebSocket" ]%string.

Definition rules : list PolicyRule.t :=
  [ PolicyRule.mk "FS001" FILE_SYSTEM_ACCESS
      "Prohibit file system access outside temp directories" "critical"
      ["open("; "file("; "fs."; "readFile"; "writeFile"]%string [];
    PolicyRule.mk "NET001" NETWORK_ACCESS
      "Prohibit all network access" "critical"
      ["socket"; "http"; "https"; "fetch"; "XMLHttpRequest"]%string [];
    PolicyRule.mk "SYS001" SYSTEM_CALL
      "Prohibit system calls and process spawning" "critical"
      ["subprocess"; "child_process"; "exec"; "spawn"]%string [];
    PolicyRule.mk "FUNC001" DANGEROUS_FUNCTION
      "Prohibit dangerous dynamic code execution" "critical"
      ["eval("; "exec("; "Function("; "compile("]%string [];
    PolicyRule.mk "RES001" RESOURCE_LIMIT
      "Enforce resource usage limits" "high" [] [] ].

Definition get_default_policy : SecurityPolicy.t :=
  SecurityPolicy.mk
    "default-v1" "Default Dynamic Tool Security Policy" "1.0.0"
    rules
    (ResourceLimits.mk 512 30.0%float 50 10 true false)
    (python_prohibited ∪ js_prohibited)
    prohibited_functions
    [] [].

(** The default policy with four fields reassigned. *)
Definition get_permissive_policy : SecurityPolicy.t :=
  let policy := get_default_policy in
  let limits := SecurityPolicy.resource_limits policy in
  SecurityPolicy.mk
    "permissive-v1" "Permissive Security Policy"
    (SecurityPolicy.version policy)
    (SecurityPolicy.rules policy)
    (ResourceLimits.mk
       (ResourceLimits.max_memory_mb limits)
       (ResourceLimits.max_cpu_seconds limits)
       100
       (ResourceLimits.max_nesting_depth limits)
       (ResourceLimits.allow_loops limits)
       true)
    (SecurityPolicy.prohibited_modules policy)
    (SecurityPolicy.prohibited_functions policy)
    (SecurityPolicy.allowed_file_operations policy)
    (SecurityPolicy.allowed_network_domains policy).

End SecurityPolicyManager.

(* ===================================================================== *)
(** ** validation/policy_evaluator.py *)
(* ===================================================================== *)

Module PolicyEvaluator.

(** [a > b] on floats. *)
Definition fgt (a b : float) : bool := PrimFloat.ltb b a.

Definition resource_violation (sev : string) (msg : fstring) (rem : string)
  : PolicyViolation.t :=
  PolicyViolation.mk RESOURCE_LIMIT "RES001" sev msg None None (Some rem).

Definition memory_violation (e : ResourceEstimate.t) (l : ResourceLimits.t) :=
  resource_violation "high"
    [ Lit "Estimated memory usage ("; Int (ResourceEstimate.estimated_memory_mb e);
      Lit "MB) exceeds limit ("; Int (ResourceLimits.max_memory_mb l); Lit "MB)" ]
    "Reduce code complexity or data structures".

Definition cpu_violation (e : ResourceEstimate.t) (l : ResourceLimits.t) :=
  resource_violation "high"
    [ Lit "Estimated CPU time ("; Flt (ResourceEstimate.estimated_cpu_seconds e);
      Lit "s) exceeds limit ("; Flt (ResourceLimits.max_cpu_seconds l); Lit "s)" ]
    "Optimize algorithms or reduce iterations".

Definition complexity_violation (e : ResourceEstimate.t) (l : ResourceLimits.t) :=
  resource_violation "medium"
    [ Lit "Code complexity ("; Int (ResourceEstimate.complexity_score e);
      Lit ") exceeds limit ("; Int (ResourceLimits.max_complexity l); Lit ")" ]
    "Simplify code structure and reduce nesting".

Definition depth_violation (e : ResourceEstimate.t) (l : ResourceLimits.t) :=
  resource_violation "medium"
    [ Lit "Nesting depth ("; Int (ResourceEstimate.max_depth e);
      Lit ") exceeds limit ("; Int (ResourceLimits.max_nesting_depth l); Lit ")" ]
    "Reduce nesting by extracting functions".

Definition recursion_violation : PolicyViolation.t :=
  resource_violation "high"
    [ Lit "Recursion is not allowed by security policy" ]
    "Convert recursive logic to iterative approach".

(** [violations.append(v)] under [if cond]. *)
Definition append_if (cond : bool) (v : PolicyViolation.t)
           (violations : list PolicyViolation.t) : list PolicyViolation.t :=
  if cond then violations ++ [v] else violations.

Definition check_resource_limits (policy : SecurityPolicy.t)
           (resource_estimate : ResourceEstimate.t) : list PolicyViolation.t :=
  let limits := SecurityPolicy.resource_limits policy in
  let violations := [] in
  let violations :=
    append_if (ResourceEstimate.estimated_memory_mb resource_estimate
               >? ResourceLimits.max_memory_mb limits)
              (memory_violation resource_estimate limits) violations in
  let violations :=
    append_if (fgt (ResourceEstimate.estimated_cpu_seconds resource_estimate)
                   (ResourceLimits.max_cpu_seconds limits))
              (cpu_violation resource_estimate limits) violations in
  let violations :=
    append_if (ResourceEstimate.complexity_score resource_estimate
               >? ResourceLimits.max_complexity limits)
              (complexity_violation resource_estimate limits) violations in
  let violations :=
    append_if (ResourceEstimate.max_depth resource_estimate
               >? ResourceLimits.max_nesting_depth limits)
              (depth_violation resource_estimate limits) violations in
  let violations :=
    append_if (ResourceEstimate.has_recursion resource_estimate
               && negb (ResourceLimits.allow_recursion limits))
              recursion_violation violations in
  violations.

Definition map_issue_to_violation_type (issue_type : string) : PolicyViolationType :=
  if String.eqb issue_type "prohibited_import" then PROHIBITED_IMPORT
  else if String.eqb issue_type "prohibited_builtin" then DANGEROUS_FUNCTION
  else if String.eqb issue_type "dangerous_pattern" then DANGEROUS_FUNCTION
  else if String.eqb issue_type "prohibited_global" then DANGEROUS_FUNCTION
  else DANGEROUS_FUNCTION.

Definition get_rule_id_for_type (violation_type : PolicyViolationType) : string :=
  match violation_type with
  | FILE_SYSTEM_ACCESS => "FS001"
  | NETWORK_ACCESS => "NET001"
  | SYSTEM_CALL => "SYS001"
  | DANGEROUS_FUNCTION => "FUNC001"
  | RESOURCE_LIMIT => "RES001"
  | PROHIBITED_IMPORT => "IMP001"
  end.

Definition get_remediation (violation_type : PolicyViolationType) : string :=
  match violation_type with
  | FILE_SYSTEM_ACCESS =>
      "Remove file system operations or use approved temporary storage APIs"
  | NETWORK_ACCESS => "Remove network calls or use approved API endpoints"
  | SYSTEM_CALL => "Remove system calls and process spawning operations"
  | DANGEROUS_FUNCTION => "Replace dynamic code execution with safe alternatives"
  | RESOURCE_LIMIT => "Optimize code to reduce resource usage"
  | PROHIBITED_IMPORT =>
      "Remove prohibited module imports and use approved alternatives"
  end.

(** The body of the loop over [validation_result.security_issues]. *)
Definition violation_of_issue (issue : SecurityIssue.t) : PolicyViolation.t :=
  let violation_type := map_issue_to_violation_type (SecurityIssue.issue_type issue) in
  PolicyViolation.mk
    violation_type
    (get_rule_id_for_type violation_type)
    (severity_value (SecurityIssue.severity issue))
    [Lit (SecurityIssue.message issue)]
    (SecurityIssue.line_number issue)
    (SecurityIssue.code_snippet issue)
    (Some (get_remediation violation_type)).

Definition evaluate (policy : SecurityPolicy.t) (validation_result : ValidationResult.t)
  : list PolicyViolation.t :=
  let violations := [] in
  let violations :=
    match ValidationResult.resource_estimate validation_result with
    | Some est => violations ++ check_resource_limits policy est
    | None => violations
    end in
  fold_left (fun violations issue => violations ++ [violation_of_issue issue])
            (ValidationResult.security_issues validation_result) violations.

Definition has_critical_violations (violations : list PolicyViolation.t) : bool :=
  existsb (fun v => String.eqb (PolicyViolation.severity v) "critical") violations.

(** [violation.violation_type.value] *)
Definition violation_type_value (violation_type : PolicyViolationType) : string :=
  match violation_type with
  | FILE_SYSTEM_ACCESS => "file_system_access"
  | NETWORK_ACCESS => "network_access"
  | SYSTEM_CALL => "system_call"
  | DANGEROUS_FUNCTION => "dangerous_function"
  | RESOURCE_LIMIT => "resource_limit"
  | PROHIBITED_IMPORT => "prohibited_import"
  end.

(** The dictionary built by [get_violation_summary]: five counters and the
    counts by violation type. *)
Record summary : Type := mk_summary {
  total : Z;
  critical : Z;
  high : Z;
  medium : Z;
  low : Z;
  by_type : gmap string Z;
}.

(** What [get_violation_summary] does: it returns the dictionary, or fails
    with a TypeError. *)
Inductive summary_outcome : Type :=
| Summary (s : summary)
| TypeError (message : string).

(** [if violation.severity in summary: summary[violation.severity] += 1].
    The test is on the keys of the dictionary, so "total" is among the
    severities counted, and so is "by_type", whose value is a dictionary:
    adding 1 to it is a TypeError. *)
Definition count_severity (severity : string) (s : summary) : option summary :=
  if String.eqb severity "total"
  then Some (mk_summary (total s + 1) (critical s) (high s) (medium s) (low s) (by_type s))
  else if String.eqb severity "critical"
  then Some (mk_summary (total s) (critical s + 1) (high s) (medium s) (low s) (by_type s))
  else if String.eqb severity "high"
  then Some (mk_summary (total s) (critical s) (high s + 1) (medium s) (low s) (by_type s))
  else if String.eqb severity "medium"
  then Some (mk_summary (total s) (critical s) (high s) (medium s + 1) (low s) (by_type s))
  else if String.eqb severity "low"
  then Some (mk_summary (total s) (critical s) (high s) (medium s) (low s + 1) (by_type s))
  else if String.eqb severity "by_type"
  then None
  else Some s.

(** [summary["by_type"][vtype] = summary["by_type"].get(vtype, 0) + 1] *)
Definition count_type (vtype : string) (s : summary) : summary :=
  mk_summary (total s) (critical s) (high s) (medium s) (low s)
             (<[ vtype := default 0 (by_type s !! vtype) + 1 ]> (by_type s)).

(** The loop over the violations. *)
Fixpoint summarize (violations : list PolicyViolation.t) (s : summary) : summary_outcome :=
  match violations with
  | [] => Summary s
  | violation :: rest =>
      match count_severity (PolicyViolation.severity violation) s with
      | None => TypeError "unsupported operand type(s) for +=: 'dict' and 'int'"
      | Some s =>
          summarize rest
            (count_type (violation_type_value (PolicyViolation.violation_type violation)) s)
      end
  end.

Definition get_violation_summary (violations : list PolicyViolation.t) : summary_outcome :=
  summarize violations (mk_summary (Z.of_nat (length violations)) 0 0 0 0 ∅).

End PolicyEvaluator.

(* ===================================================================== *)
(** ** validation/python_analyzer.py *)
(* ===================================================================== *)

(** The tree built by [ast.parse].  A node carries an identity [nid]
    (Python compares nodes by identity; context and operator nodes are
    shared objects, hence share an identity), the class and the attributes
    the analyzer reads, its line number, and its child nodes in the order
    of [ast.iter_child_nodes].  The [func] of a [Call] is its first child. *)
Inductive ast_kind : Type :=
| KModule
| KFunctionDef (name : string)
| KImport (names : list string)
| KImportFrom (module : option string)
| KCall
| KName (id : string)
| KFor
| KWhile
| KOther (cls : string).

Inductive ast : Type :=
| Node (nid : nat) (kind : ast_kind) (lineno : Z) (children : list ast).

Definition nid (n : ast) : nat := match n with Node i _ _ _ => i end.
Definition kind (n : ast) : ast_kind := match n with Node _ k _ _ => k end.
Definition lineno (n : ast) : Z := match n with Node _ _ l _ => l end.
Definition children (n : ast) : list ast := match n with Node _ _ _ cs => cs end.

Inductive parse_outcome : Type :=
| Parsed (tree : ast)
| SyntaxError (lineno : option Z) (msg : string).

(** One entry of the ["results"] array printed by the external linter. *)
Record bandit_issue : Type := {
  issue_severity : option string;
  test_id : option string;
  issue_text : option string;
  bandit_line_number : option Z;
  bandit_code : option string;
}.

Inductive bandit_outcome : Type :=
| BanditOutput (results : list bandit_issue)
| BanditNoOutput
| BanditTimeout
| BanditNotFound
| BanditFailed (msg : string).

(** [int] to [float], exact on the range the estimators reach. *)
Definition float_of_int (n : Z) : float := PrimFloat.of_uint63 (Uint63.of_Z n).

(** [min(a, b)] on floats: the first argument unless the second is smaller. *)
Definition fmin (a b : float) : float := if PrimFloat.ltb b a then b else a.

(** [str(x)] of an optional integer. *)
Definition str_opt_int (x : option Z) : string :=
  match x with Some n => pretty n | None => "None" end.

Module PythonAnalyzer.

Definition PROHIBITED_MODULES : gset string :=
  list_to_set
    [ "os"; "subprocess"; "socket"; "urllib"; "urllib2"; "urllib3";
      "requests"; "http"; "httplib"; "ftplib"; "telnetlib";
      "smtplib"; "poplib"; "imaplib"; "__import__"; "importlib";
      "sys"; "ctypes"; "multiprocessing"; "threading"; "asyncio" ]%string.

Definition PROHIBITED_BUILTINS : gset string :=
  list_to_set [ "eval"; "exec"; "compile"; "__import__"; "open"; "input" ]%string.

Fixpoint size (t : ast) : nat :=
  match t with
  | Node _ _ _ cs =>
      S ((fix sizes (l : list ast) : nat :=
            match l with [] => O | c :: l' => (size c + sizes l')%nat end) cs)
  end.

(** [ast.walk]: breadth first, a queue extended with each node's children. *)
Fixpoint walk_queue (fuel : nat) (todo : list ast) : list ast :=
  match fuel, todo with
  | S f, node :: rest => node :: walk_queue f (rest ++ children node)
  | _, _ => []
  end.

Definition walk (tree : ast) : list ast := walk_queue (size tree) [tree].

Definition same_node (a b : ast) : bool := Nat.eqb (nid a) (nid b).

Fixpoint depth_scan (target : ast) (nodes : list ast) (depth : Z) : Z :=
  match nodes with
  | [] => 0
  | node :: rest =>
      if existsb (fun child => same_node child target) (children node)
      then depth + 1
      else depth_scan target rest (depth + 1)
  end.

Definition get_node_depth (target_node tree : ast) : Z :=
  depth_scan target_node (walk tree) 0.

Definition get_code_snippet (code_lines : list string) (line_number : Z) : string :=
  if (1 <=? line_number) && (line_number <=? Z.of_nat (length code_lines))
  then Text.strip (nth (Z.to_nat (line_number - 1)) code_lines EmptyString)
  else EmptyString.

(** [node.func.id] when [node.func] is a [Name]. *)
Definition call_func_name (node : ast) : option string :=
  match kind node, children node with
  | KCall, func :: _ => match kind func with KName id => Some id | _ => None end
  | _, _ => None
  end.

Definition prohibited_import (code_lines : list string) (node : ast) (name : string)
  : SecurityIssue.t :=
  SecurityIssue.mk CRITICAL "prohibited_import"
    (String.append "Prohibited module import: " name)
    (Some (lineno node)) (Some (get_code_snippet code_lines (lineno node))).

Definition analyze_node (code_lines : list string) (node : ast) : list SecurityIssue.t :=
  (match kind node with
   | KImport names =>
       map (prohibited_import code_lines node)
           (filter (fun name => name ∈ PROHIBITED_MODULES) names)
   | _ => []
   end)
  ++ (match kind node with
      | KImportFrom (Some module) =>
          if Text.truthy module && bool_decide (module ∈ PROHIBITED_MODULES)
          then [prohibited_import code_lines node module] else []
      | _ => []
      end)
  ++ (match call_func_name node with
      | Some id =>
          if bool_decide (id ∈ PROHIBITED_BUILTINS)
          then [ SecurityIssue.mk CRITICAL "prohibited_builtin"
                   (String.append "Prohibited built-in function: " id)
                   (Some (lineno node))
                   (Some (get_code_snippet code_lines (lineno node))) ]
          else []
      | None => []
      end).

Definition analyze_ast (tree : ast) (code : string) : list SecurityIssue.t :=
  let code_lines := Text.split_lines code in
  flat_map (analyze_node code_lines) (walk tree).

Definition bandit_severity (issue : bandit_issue) : SeverityLevel :=
  let key := default "MEDIUM"%string (issue_severity issue) in
  if String.eqb key "LOW" then LOW
  else if String.eqb key "MEDIUM" then MEDIUM
  else if String.eqb key "HIGH" then HIGH
  else MEDIUM.

Definition bandit_security_issue (issue : bandit_issue) : SecurityIssue.t :=
  SecurityIssue.mk
    (bandit_severity issue)
    (default "unknown"%string (test_id issue))
    (default "Security issue detected"%string (issue_text issue))
    (bandit_line_number issue)
    (bandit_code issue).

(** [_run_bandit_scan]: the findings and the warnings it appends. *)
Definition run_bandit_scan (out : bandit_outcome) : list SecurityIssue.t * list string :=
  match out with
  | BanditOutput results => (map bandit_security_issue results, [])
  | BanditNoOutput => ([], [])
  | BanditTimeout => ([], ["Bandit scan timed out"%string])
  | BanditNotFound => ([], ["Bandit not available for security scanning"%string])
  | BanditFailed msg => ([], [String.append "Bandit scan failed: " msg])
  end.

(** The local variables of [_estimate_resources]. *)
Record locals : Type := mk_locals {
  has_loops : bool;
  has_recursion : bool;
  max_depth : Z;
  complexity : Z;
  function_names : gset string;
}.

Definition is_loop (node : ast) : bool :=
  match kind node with KFor | KWhile => true | _ => false end.

Definition is_known_call (names : gset string) (node : ast) : bool :=
  match call_func_name node with
  | Some id => bool_decide (id ∈ names)
  | None => false
  end.

(** One iteration of [for node in ast.walk(tree)]. *)
Definition visit (tree : ast) (st : locals) (node : ast) : locals :=
  let st :=
    if is_loop node
    then mk_locals true (has_recursion st) (max_depth st) (complexity st + 2)
                   (function_names st)
    else st in
  let st :=
    match kind node with
    | KFunctionDef name =>
        mk_locals (has_loops st) (has_recursion st) (max_depth st) (complexity st)
                  ({[ name ]} ∪ function_names st)
    | _ => st
    end in
  let st :=
    if is_known_call (function_names st) node
    then mk_locals (has_loops st) true (max_depth st) (complexity st + 5)
                   (function_names st)
    else st in
  let depth := get_node_depth node tree in
  mk_locals (has_loops st) (has_recursion st) (Z.max (max_depth st) depth)
            (complexity st) (function_names st).

Definition initial : locals := mk_locals false false 0 1 ∅.

(** The estimate built from the final values of the locals. *)
Definition estimate_of (has_loops has_recursion : bool) (max_depth complexity : Z)
  : ResourceEstimate.t :=
  let estimated_memory := 64 + complexity * 2 in
  let estimated_cpu :=
    PrimFloat.add 0.1%float (PrimFloat.mul (float_of_int complexity) 0.05%float) in
  let estimated_cpu :=
    if has_loops then PrimFloat.add estimated_cpu 0.5%float else estimated_cpu in
  let estimated_cpu :=
    if has_recursion then PrimFloat.add estimated_cpu 1.0%float else estimated_cpu in
  ResourceEstimate.mk
    (Z.min estimated_memory 512)
    (fmin estimated_cpu 30.0%float)
    complexity has_loops has_recursion max_depth.

Definition estimate_resources (tree : ast) : ResourceEstimate.t :=
  let st := fold_left (visit tree) (walk tree) initial in
  estimate_of (has_loops st) (has_recursion st) (max_depth st) (complexity st).

Definition analyze (ast_parse : string -> parse_outcome)
           (bandit : string -> bandit_outcome) (code : string) : ValidationResult.t :=
  let code_hash := SHA256.hexdigest (Text.utf8 code) in
  match ast_parse code with
  | SyntaxError e_lineno e_msg =>
      let errors :=
        [ String.append "Syntax error at line "
            (String.append (str_opt_int e_lineno) (String.append ": " e_msg)) ] in
      ValidationResult.mk false "python" code_hash errors [] [] None None
  | Parsed tree =>
      let errors : list string := [] in
      let issues := analyze_ast tree code in
      let scan := run_bandit_scan (bandit code) in
      let security_issues := issues ++ fst scan in
      let warnings := snd scan in
      let resource_estimate := estimate_resources tree in
      let is_valid :=
        Nat.eqb (length errors) 0
        && negb (existsb (fun issue => is_critical (SecurityIssue.severity issue))
                         security_issues) in
      ValidationResult.mk is_valid "python" code_hash errors warnings security_issues
                          (Some resource_estimate) None
  end.

End PythonAnalyzer.

(* ===================================================================== *)
(** ** The regular expressions of validation/javascript_analyzer.py *)
(* ===================================================================== *)

(** Each pattern used by [_estimate_resources] is a sequence of literals and
    greedy runs of one character class followed by a character outside that
    class, so the backtracking matcher of [re] has one way to match at a
    position: the matchers below follow it left to right.  A matcher
    receives the character before the position (for [\b]) and the input from
    the position on, and returns the captured group and the input after the
    match. *)
Module Re.

Definition matcher (A : Type) : Type := option ascii -> string -> option (A * string).

Fixpoint skip_space (s : string) : string :=
  match s with
  | String c s' => if Text.isspace c then skip_space s' else s
  | EmptyString => EmptyString
  end.

(** The longest run of word characters and what follows it. *)
Fixpoint take_word (s : string) : string * string :=
  match s with
  | String c s' =>
      if Text.isword c
      then let r := take_word s' in (String c (fst r), snd r)
      else (EmptyString, s)
  | EmptyString => (EmptyString, EmptyString)
  end.

(** [[^)]*] *)
Fixpoint skip_not_rparen (s : string) : string :=
  match s with
  | String c s' => if Ascii.eqb c ")"%char then s else skip_not_rparen s'
  | EmptyString => EmptyString
  end.

Fixpoint literal (lit s : string) : option string :=
  match lit, s with
  | EmptyString, _ => Some s
  | String a lit', String c s' => if Ascii.eqb a c then literal lit' s' else None
  | String _ _, EmptyString => None
  end.

(** [\b]: exactly one of the two neighbours is a word character. *)
Definition word_boundary (prev : option ascii) (s : string) : bool :=
  xorb (match prev with Some c => Text.isword c | None => false end)
       (match s with String c _ => Text.isword c | EmptyString => false end).

(** [\s+] *)
Definition spaces1 (s : string) : option string :=
  match s with
  | String c s' => if Text.isspace c then Some (skip_space s') else None
  | EmptyString => None
  end.

(** [(\w+)] *)
Definition word1 (s : string) : option (string * string) :=
  match take_word s with
  | (EmptyString, _) => None
  | r => Some r
  end.

(** [\bKEYWORD\s*OPEN] with [OPEN] one character. *)
Definition keyword_open (kw : string) (open : ascii) : matcher unit :=
  fun prev s =>
    if word_boundary prev s then
      rest ← literal kw s;
      rest ← literal (String open EmptyString) (skip_space rest);
      Some (tt, rest)
    else None.

(** [function\s+(\w+)\s*\(] *)
Definition func_pattern : matcher string :=
  fun _ s =>
    rest ← literal "function" s;
    rest ← spaces1 rest;
    '(name, rest) ← word1 rest;
    rest ← literal "(" (skip_space rest);
    Some (name, rest).

(** [const\s+(\w+)\s*=\s*\([^)]*\)\s*=>] *)
Definition arrow_func_pattern : matcher string :=
  fun _ s =>
    rest ← literal "const" s;
    rest ← spaces1 rest;
    '(name, rest) ← word1 rest;
    rest ← literal "=" (skip_space rest);
    rest ← literal "(" (skip_space rest);
    rest ← literal ")" (skip_not_rparen rest);
    rest ← literal "=>" (skip_space rest);
    Some (name, rest).

(** [rf"\b{re.escape(func_name)}\s*\("] for a name made of word characters. *)
Definition call_pattern (func_name : string) : matcher unit :=
  keyword_open func_name "("%char.

(** [re.finditer]: the non-overlapping matches, leftmost first.  After a
    match the scan resumes where it ended: [skip] counts the characters
    of the current match still to pass over. *)
Fixpoint finditer_from {A : Type} (m : matcher A) (skip : nat)
         (prev : option ascii) (s : string) : list A :=
  match s with
  | EmptyString => []
  | String c s' =>
      match skip with
      | S k => finditer_from m k (Some c) s'
      | O =>
          match m prev s with
          | Some (a, rest) =>
              a :: finditer_from m (String.length s - String.length rest - 1)
                                 (Some c) s'
          | None => finditer_from m O (Some c) s'
          end
      end
  end.

Definition finditer {A : Type} (m : matcher A) (s : string) : list A :=
  finditer_from m O None s.

(** [re.search(...)] as a truth value. *)
Fixpoint search_from {A : Type} (m : matcher A) (prev : option ascii) (s : string) : bool :=
  match m prev s with
  | Some _ => true
  | None =>
      match s with
      | String c s' => search_from m (Some c) s'
      | EmptyString => false
      end
  end.

Definition search {A : Type} (m : matcher A) (s : string) : bool :=
  search_from m None s.

(** [LIT\s*OPEN] with [OPEN] one character; no word boundary is asked for. *)
Definition literal_open (lit : string) (open : ascii) : matcher unit :=
  fun _ s =>
    rest ← literal lit s;
    rest ← literal (String open EmptyString) (skip_space rest);
    Some (tt, rest).

(** A pattern that is one literal. *)
Definition literal_pattern (lit : string) : matcher unit :=
  fun _ s => rest ← literal lit s; Some (tt, rest).

(** The two characters of the class written with a single and a double
    quote. *)
Definition isquote (c : ascii) : bool :=
  Ascii.eqb c "'"%char || Ascii.eqb c "034"%char.

Definition quote (s : string) : option string :=
  match s with
  | String c s' => if isquote c then Some s' else None
  | EmptyString => None
  end.

(** [[^,]*] *)
Fixpoint skip_not_comma (s : string) : string :=
  match s with
  | String c s' => if Ascii.eqb c ","%char then s else skip_not_comma s'
  | EmptyString => EmptyString
  end.

(** The longest run of characters that are not quotes, and what follows. *)
Fixpoint take_not_quote (s : string) : string * string :=
  match s with
  | String c s' =>
      if isquote c then (EmptyString, s)
      else let r := take_not_quote s' in (String c (fst r), snd r)
  | EmptyString => (EmptyString, EmptyString)
  end.

(** A group of one or more characters that are not quotes. *)
Definition not_quote1 (s : string) : option (string * string) :=
  match take_not_quote s with
  | (EmptyString, _) => None
  | r => Some r
  end.

(** [NAME\s*\([^,]*,\s*QUOTE]: a call of [NAME] whose second argument
    starts with a quote. *)
Definition timer_with_string (name : string) : matcher unit :=
  fun _ s =>
    rest ← literal name s;
    rest ← literal "(" (skip_space rest);
    rest ← literal "," (skip_not_comma rest);
    rest ← quote (skip_space rest);
    Some (tt, rest).

Fixpoint last_char (s : string) : option ascii :=
  match s with
  | EmptyString => None
  | String c EmptyString => Some c
  | String _ s' => last_char s'
  end.

(** [rf"\b{re.escape(name)}\b"]: the name as a literal between two word
    boundaries. *)
Definition word_pattern (name : string) : matcher unit :=
  fun prev s =>
    if word_boundary prev s then
      rest ← literal name s;
      let before := match last_char name with Some c => Some c | None => prev end in
      if word_boundary before rest then Some (tt, rest) else None
    else None.

(** [require\s*\(\s*QUOTE(GROUP)QUOTE\s*\)], the group being one or more
    characters that are not quotes. *)
Definition require_pattern : matcher string :=
  fun _ s =>
    rest ← literal "require" s;
    rest ← literal "(" (skip_space rest);
    rest ← quote (skip_space rest);
    '(name, rest) ← not_quote1 rest;
    rest ← quote rest;
    rest ← literal ")" (skip_space rest);
    Some (name, rest).

(** [\s+from\s+QUOTE(GROUP)QUOTE], the end of the import pattern. *)
Definition from_clause (s : string) : option (string * string) :=
  rest ← spaces1 s;
  rest ← literal "from" rest;
  rest ← spaces1 rest;
  rest ← quote rest;
  '(name, rest) ← not_quote1 rest;
  rest ← quote rest;
  Some (name, rest).

(** The match of [m] that starts latest in [s]. *)
Fixpoint last_match {A : Type} (m : string -> option (A * string)) (s : string)
  : option (A * string) :=
  match s with
  | EmptyString => m s
  | String _ s' =>
      match last_match m s' with
      | Some r => Some r
      | None => m s
      end
  end.

(** [import\s+.*\s+from\s+QUOTE(GROUP)QUOTE].  After [import] and one
    white-space character, the greedy [\s+.*] gives way one character at a
    time, so the end of the pattern is matched at the last position where
    it matches at all. *)
Definition import_pattern : matcher string :=
  fun _ s =>
    rest ← literal "import" s;
    match rest with
    | String c rest' => if Text.isspace c then last_match from_clause rest' else None
    | EmptyString => None
    end.

End Re.

(* ===================================================================== *)
(** ** validation/javascript_analyzer.py *)
(* ===================================================================== *)

Module JavaScriptAnalyzer.

Definition loop_patterns : list (Re.matcher unit) :=
  [ Re.keyword_open "for" "("%char;
    Re.keyword_open "while" "("%char;
    Re.keyword_open "do" "{"%char ].

(** The names collected by the two [finditer] loops. *)
Definition function_names (code : string) : gset string :=
  list_to_set (Re.finditer Re.func_pattern code)
  ∪ list_to_set (Re.finditer Re.arrow_func_pattern code).

(** [len(re.findall(pattern, code))] for the call pattern of [func_name]. *)
Definition call_sites (func_name code : string) : nat :=
  length (Re.finditer (Re.call_pattern func_name) code).

(** The locals [has_loops], [has_recursion] and [complexity]. *)
Record locals : Type := mk_locals {
  has_loops : bool;
  has_recursion : bool;
  complexity : Z;
}.

Definition loop_step (code : string) (st : locals) (pattern : Re.matcher unit) : locals :=
  if Re.search pattern code
  then mk_locals true (has_recursion st) (complexity st + 2)
  else st.

Definition recursion_step (code : string) (st : locals) (func_name : string) : locals :=
  if Nat.ltb 1 (call_sites func_name code)
  then mk_locals (has_loops st) true (complexity st + 5)
  else st.

(** The running brace count over the lines, with its maximum. *)
Definition depth_step (st : Z * Z) (line : string) : Z * Z :=
  let current_depth :=
    fst st + (Text.count_char "{"%char line - Text.count_char "}"%char line) in
  (current_depth, Z.max (snd st) current_depth).

Definition nesting_depth (code : string) : Z :=
  snd (fold_left depth_step (Text.split_lines code) (0, 0)).

Definition estimate_resources (code : string) : ResourceEstimate.t :=
  let st := mk_locals false false 1 in
  let st := fold_left (loop_step code) loop_patterns st in
  let st := fold_left (recursion_step code) (elements (function_names code)) st in
  let max_depth := nesting_depth code in
  PythonAnalyzer.estimate_of (has_loops st) (has_recursion st) max_depth (complexity st).

(** [analyze].  The syntax check and the security scans
    ([_validate_syntax], [_analyze_security_patterns], [_analyze_imports])
    fill [self.errors] and [self.security_issues]; they enter here through
    [scan], their combined result on the source. *)
Definition analyze (scan : string -> list string * list SecurityIssue.t)
           (code language : string) : ValidationResult.t :=
  let code_hash := SHA256.hexdigest (Text.utf8 code) in
  let errors := fst (scan code) in
  let security_issues := snd (scan code) in
  let resource_estimate := estimate_resources code in
  let is_valid :=
    Nat.eqb (length errors) 0
    && negb (existsb (fun issue => is_critical (SecurityIssue.severity issue))
                     security_issues) in
  ValidationResult.mk is_valid language code_hash errors [] security_issues
                      (Some resource_estimate) None.

Definition PROHIBITED_MODULES : gset string :=
  list_to_set
    [ "fs"; "child_process"; "net"; "http"; "https"; "dgram"; "dns"; "tls";
      "crypto"; "os"; "process"; "cluster"; "worker_threads"; "vm" ]%string.

Definition PROHIBITED_GLOBALS : gset string :=
  list_to_set
    [ "eval"; "Function"; "require"; "import"; "XMLHttpRequest"; "fetch";
      "WebSocket" ]%string.

Definition DANGEROUS_PATTERNS : list (Re.matcher unit * string) :=
  [ (Re.literal_open "eval" "("%char, "eval() usage detected"%string);
    (Re.literal_open "Function" "("%char, "Function constructor usage detected"%string);
    (Re.timer_with_string "setTimeout", "setTimeout with string argument"%string);
    (Re.timer_with_string "setInterval", "setInterval with string argument"%string);
    (Re.literal_pattern "__proto__", "Prototype pollution risk"%string);
    (Re.literal_open "constructor" "["%char, "Constructor access detected"%string) ].

(** The variables of [_validate_syntax]. *)
Record syntax_state : Type := mk_syntax {
  brace_count : Z;
  paren_count : Z;
  bracket_count : Z;
  in_string : bool;
  in_comment : bool;
  string_char : option ascii;
}.

Definition initial_syntax : syntax_state := mk_syntax 0 0 0 false false None.

Definition set_in_comment (b : bool) (st : syntax_state) : syntax_state :=
  mk_syntax (brace_count st) (paren_count st) (bracket_count st)
            (in_string st) b (string_char st).

(** The three quote characters that open and close a string. *)
Definition is_string_quote (c : ascii) : bool :=
  Ascii.eqb c "034"%char || Ascii.eqb c "'"%char || Ascii.eqb c "`"%char.

(** "Handle strings": a quote that is not preceded by a backslash opens a
    string, or closes the one opened by the same character. *)
Definition handle_string (prev : option ascii) (c : ascii) (st : syntax_state)
  : syntax_state :=
  if is_string_quote c
     && match prev with Some p => negb (Ascii.eqb p "\"%char) | None => true end
  then
    if negb (in_string st)
    then mk_syntax (brace_count st) (paren_count st) (bracket_count st)
                   true (in_comment st) (Some c)
    else if match string_char st with Some q => Ascii.eqb c q | None => false end
    then mk_syntax (brace_count st) (paren_count st) (bracket_count st)
                   false (in_comment st) None
    else st
  else st.

(** "Count brackets when not in string". *)
Definition count_bracket (c : ascii) (st : syntax_state) : syntax_state :=
  if in_string st then st
  else if Ascii.eqb c "{"%char
  then mk_syntax (brace_count st + 1) (paren_count st) (bracket_count st)
                 (in_string st) (in_comment st) (string_char st)
  else if Ascii.eqb c "}"%char
  then mk_syntax (brace_count st - 1) (paren_count st) (bracket_count st)
                 (in_string st) (in_comment st) (string_char st)
  else if Ascii.eqb c "("%char
  then mk_syntax (brace_count st) (paren_count st + 1) (bracket_count st)
                 (in_string st) (in_comment st) (string_char st)
  else if Ascii.eqb c ")"%char
  then mk_syntax (brace_count st) (paren_count st - 1) (bracket_count st)
                 (in_string st) (in_comment st) (string_char st)
  else if Ascii.eqb c "["%char
  then mk_syntax (brace_count st) (paren_count st) (bracket_count st + 1)
                 (in_string st) (in_comment st) (string_char st)
  else if Ascii.eqb c "]"%char
  then mk_syntax (brace_count st) (paren_count st) (bracket_count st - 1)
                 (in_string st) (in_comment st) (string_char st)
  else st.

(** The body of the [while] loop from [if in_comment] on, for the
    character [c] at index [i] and the character [prev] at [i - 1]. *)
Definition scan_char (prev : option ascii) (c : ascii) (st : syntax_state)
  : syntax_state :=
  if in_comment st then st
  else count_bracket c (handle_string prev c st).

(** The [while] loop over one line.  [line] is [line[i:]] and [prev] is
    [line[i-1]].  The comment markers are looked for when the state is not
    inside a string and a character follows the current one. *)
Fixpoint scan_line (st : syntax_state) (prev : option ascii) (line : string)
  : syntax_state :=
  match line with
  | EmptyString => st
  | String c rest =>
      match rest with
      | String d rest' =>
          if negb (in_string st) && Ascii.eqb c "/"%char && Ascii.eqb d "/"%char
          then st
          else if negb (in_string st) && Ascii.eqb c "/"%char && Ascii.eqb d "*"%char
          then scan_line (set_in_comment true st) (Some d) rest'
          else if negb (in_string st) && Ascii.eqb c "*"%char && Ascii.eqb d "/"%char
                  && in_comment st
          then scan_line (set_in_comment false st) (Some d) rest'
          else scan_line (scan_char prev c st) (Some c) rest
      | EmptyString => scan_char prev c st
      end
  end.

(** [_validate_syntax]: the errors it appends. *)
Definition validate_syntax (code : string) : list string :=
  let lines := Text.split_lines code in
  let st := fold_left (fun st line => scan_line st None line) lines initial_syntax in
  (if negb (brace_count st =? 0)
   then [String.append "Unbalanced braces: "
           (String.append (pretty (brace_count st)) " unclosed")]
   else [])
  ++ (if negb (paren_count st =? 0)
      then [String.append "Unbalanced parentheses: "
              (String.append (pretty (paren_count st)) " unclosed")]
      else [])
  ++ (if negb (bracket_count st =? 0)
      then [String.append "Unbalanced brackets: "
              (String.append (pretty (bracket_count st)) " unclosed")]
      else []).

(** [enumerate(lines, start)] *)
Fixpoint enumerate {A : Type} (start : Z) (l : list A) : list (Z * A) :=
  match l with
  | [] => []
  | x :: l' => (start, x) :: enumerate (start + 1) l'
  end.

(** One issue for each line on which the pattern is found. *)
Definition line_issues {A : Type} (issue_type message : string) (pattern : Re.matcher A)
           (lines : list string) : list SecurityIssue.t :=
  flat_map
    (fun numbered =>
       if Re.search pattern numbered.2
       then [SecurityIssue.mk CRITICAL issue_type message
               (Some numbered.1) (Some (Text.strip numbered.2))]
       else [])
    (enumerate 1 lines).

(** [_analyze_security_patterns]: the issues it appends.  The prohibited
    globals are taken in the iteration order of the set. *)
Definition analyze_security_patterns (code : string) : list SecurityIssue.t :=
  let lines := Text.split_lines code in
  flat_map (fun entry => line_issues "dangerous_pattern" entry.2 entry.1 lines)
           DANGEROUS_PATTERNS
  ++ flat_map
       (fun global_name =>
          line_issues "prohibited_global"
            (String.append "Prohibited global usage: " global_name)
            (Re.word_pattern global_name) lines)
       (elements PROHIBITED_GLOBALS).

(** The issues for the matches of one pattern on one line. *)
Definition import_issues (line_num : Z) (line : string) (pattern : Re.matcher string)
  : list SecurityIssue.t :=
  map (fun module_name =>
         SecurityIssue.mk CRITICAL "prohibited_import"
           (String.append "Prohibited module import: " module_name)
           (Some line_num) (Some (Text.strip line)))
      (filter (fun module_name => module_name ∈ PROHIBITED_MODULES)
              (Re.finditer pattern line)).

(** [_analyze_imports]: the issues it appends. *)
Definition analyze_imports (code : string) : list SecurityIssue.t :=
  let lines := Text.split_lines code in
  flat_map
    (fun numbered =>
       import_issues numbered.1 numbered.2 Re.require_pattern
       ++ import_issues numbered.1 numbered.2 Re.import_pattern)
    (enumerate 1 lines).

(** Steps 1 to 3 of [analyze]: the errors and the security issues
    collected before the resource estimate. *)
Definition scan_source (code : string) : list string * list SecurityIssue.t :=
  (validate_syntax code, analyze_security_patterns code ++ analyze_imports code).

End JavaScriptAnalyzer.

(* ===================================================================== *)
(** ** models/errors.py, and the effects of the runtime *)
(* ===================================================================== *)

(** An entry of [ValidationError.security_issues]: a message, or the issue
    object itself where the caller passes the objects. *)
Inductive issue_entry : Type :=
| IssueText (m : fstring)
| IssueObject (i : SecurityIssue.t).

(** The exceptions that travel through the modelled code.  [str(e)] of each
    is its message. *)
Inductive exn : Type :=
| ValidationError (message : string) (errors warnings : list string)
                  (security_issues : list issue_entry)
| RegistrationError (message : string) (tool_id agent_id : option string)
| StorageError (message : string) (operation resource : option string)
| AttributeError (message : string)
| KeyError (message : string)
| JSONDecodeError (message : string).

Definition str_exn (e : exn) : string :=
  match e with
  | ValidationError m _ _ _ => m
  | RegistrationError m _ _ => m
  | StorageError m _ _ => m
  | AttributeError m => m
  | KeyError m => m
  | JSONDecodeError m => m
  end.

(** [tool_id=...] keyword arguments are stored as given; the model keeps
    [None] for an omitted one. *)
Definition is_RegistrationError (e : exn) : bool :=
  match e with RegistrationError _ _ _ => true | _ => false end.
Definition is_StorageError (e : exn) : bool :=
  match e with StorageError _ _ _ => true | _ => false end.
Definition is_ValidationError (e : exn) : bool :=
  match e with ValidationError _ _ _ _ => true | _ => false end.

(* ===================================================================== *)
(** ** models/cached_artifact.py, models/tool_definition.py,
       models/tool_record.py *)
(* ===================================================================== *)

Module CachedValidationResult.
(** The class [ValidationResult] of models/cached_artifact.py. *)
Record t : Type := mk {
  is_valid : bool;
  errors : list string;
  warnings : list string;
  security_issues : list string;
}.
End CachedValidationResult.

(** The Python value held in a [validation_result] variable or field of the
    storage and lifecycle code: an object of the class above, or the pair
    returned by [ValidationService.validate_code]. *)
Inductive result_value : Type :=
| SimpleResult (r : CachedValidationResult.t)
| ResultTuple (r : ValidationResult.t) (violations : list PolicyViolation.t).

Module ExecutionMetadata.
Record t : Type := mk {
  estimated_memory_mb : Z;
  estimated_cpu_ms : Z;
  timeout_seconds : Z;
  requires_network : bool;
  requires_filesystem : bool;
}.
End ExecutionMetadata.

Module CachedToolArtifact.
Record t : Type := mk {
  code_hash : string;
  validated_code : string;
  validation_result : result_value;
  dependencies : list string;
  execution_metadata : ExecutionMetadata.t;
  created_at : string;
  usage_count : Z;
  language : string;
  original_code : option string;
}.

(** The dictionary written by [to_dict] and read by [from_dict]. *)
Record dict : Type := mk_dict {
  codeHash : string;
  validatedCode : string;
  validationResult : CachedValidationResult.t;
  d_dependencies : list string;
  executionMetadata : ExecutionMetadata.t;
  createdAt : string;
  usageCount : Z;
  d_language : string;
  originalCode : option string;
}.

(** [to_dict] calls [validation_result.to_dict()], which a tuple lacks;
    [originalCode] is written only when it is a non-empty string. *)
Definition to_dict (a : t) : exn + dict :=
  match validation_result a with
  | ResultTuple _ _ => inl (AttributeError "'tuple' object has no attribute 'to_dict'")
  | SimpleResult r =>
      inr (mk_dict (code_hash a) (validated_code a) r (dependencies a)
                   (execution_metadata a) (created_at a) (usage_count a)
                   (language a)
                   (match original_code a with
                    | Some c => if Text.truthy c then Some c else None
                    | None => None
                    end))
  end.

Definition from_dict (d : dict) : t :=
  mk (codeHash d) (validatedCode d) (SimpleResult (validationResult d))
     (d_dependencies d) (executionMetadata d) (createdAt d) (usageCount d)
     (d_language d) (originalCode d).

Definition increment_usage (a : t) : t :=
  mk (code_hash a) (validated_code a) (validation_result a) (dependencies a)
     (execution_metadata a) (created_at a) (usage_count a + 1) (language a)
     (original_code a).
End CachedToolArtifact.

Module ParameterSchema.
Record t : Type := mk {
  type : string;
  description : string;
  required : bool;
}.
End ParameterSchema.

Module ToolSchema.
Record t : Type := mk {
  parameters : list (string * ParameterSchema.t);
  returns_type : string;
  returns_description : string;
}.
End ToolSchema.

Module ToolDefinition.
Record t : Type := mk {
  name : string;
  description : string;
  version : string;
  language : string;
  code : string;
  schema : ToolSchema.t;
  metadata : list (string * string);
}.

Definition blank (s : string) : bool := Text.blank s.

Definition supported_language (l : string) : bool :=
  String.eqb l "python" || String.eqb l "javascript" || String.eqb l "typescript".

Definition validate_structure (d : t) : list string :=
  (if blank (name d) then ["Tool name is required"%string] else [])
  ++ (if blank (description d) then ["Tool description is required"%string] else [])
  ++ (if blank (version d) then ["Tool version is required"%string] else [])
  ++ (if negb (supported_language (language d))
      then [String.append "Unsupported language: " (language d)] else [])
  ++ (if blank (code d) then ["Tool code is required"%string] else []).
End ToolDefinition.

Inductive ToolStatus : Type := ACTIVE | INACTIVE | DEPRECATED.


Module ToolRecord.
Record t : Type := mk {
  tool_id : string;
  agent_id : string;
  name : string;
  description : string;
  version : string;
  status : ToolStatus;
  code_artifact_s3_key : string;
  schema : ToolSchema.t;
  created_at : string;
  updated_at : string;
  execution_count : Z;
  last_executed : option string;
  code_hash : option string;
  language : string;
  metadata : list (string * string);
}.

(** An optional string attribute is written to the item only when it is
    a non-empty string, and read back as [None] when absent. *)
Definition stored_opt (x : option string) : option string :=
  match x with
  | Some v => if Text.truthy v then Some v else None
  | None => None
  end.

(** The record read back from the item that [to_dynamodb_item] writes. *)
Definition to_dynamodb_item (r : t) : t :=
  mk (tool_id r) (agent_id r) (name r) (description r) (version r) (status r)
     (code_artifact_s3_key r) (schema r) (created_at r) (updated_at r)
     (execution_count r) (stored_opt (last_executed r)) (stored_opt (code_hash r))
     (language r) (metadata r).

Definition create_new (now tool_id agent_id name description version
                       code_artifact_s3_key : string) (schema : ToolSchema.t)
           (code_hash language : string) (metadata : list (string * string)) : t :=
  mk tool_id agent_id name description version ACTIVE code_artifact_s3_key schema
     now now 0 None (Some code_hash) language metadata.
End ToolRecord.

(** One entry of the audit trail written by the validation cache. *)
Record audit_entry : Type := {
  audit_timestamp : string;
  audit_action : string;
  audit_code_hash : string;
  audit_language : string;
  audit_is_valid : bool;
  audit_has_critical_issues : bool;
}.

(** An object of the bucket: a JSON document or raw bytes. *)
Inductive s3_object : Type :=
| ArtifactJson (d : CachedToolArtifact.dict)
| AuditJson (e : audit_entry)
| Blob (body : string).

(** A request that reached the gateway. *)
Inductive gateway_call : Type :=
| Publish (tool_id agent_id : string)
| Unpublish (tool_id agent_id : string)
| SyncMetadata (tool_id : string).

(** The state outside the process.  [script] lists the outcomes of the
    remote calls to come, one entry per call: [None] for success, [Some msg]
    for a client error with that message; calls past its end succeed. *)
Record world : Type := mk_world {
  s3 : gmap string s3_object;
  table : gmap string ToolRecord.t;
  gateway : list gateway_call;
  script : list (option string);
}.

Inductive outcome (A : Type) : Type :=
| Ok (a : A)
| Raise (e : exn).
Arguments Ok {A} a.
Arguments Raise {A} e.

Definition M (A : Type) : Type := world -> outcome A * world.

Definition ret {A : Type} (a : A) : M A := fun w => (Ok a, w).
Definition raise {A : Type} (e : exn) : M A := fun w => (Raise e, w).
Definition bind {A B : Type} (m : M A) (k : A -> M B) : M B :=
  fun w => match m w with
           | (Ok a, w') => k a w'
           | (Raise e, w') => (Raise e, w')
           end.

(** [try: m  except Exception as e: h e] *)
Definition try_except {A : Type} (m : M A) (h : exn -> M A) : M A :=
  fun w => match m w with
           | (Ok a, w') => (Ok a, w')
           | (Raise e, w') => h e w'
           end.

Notation "'do' x <- m ; k" := (bind m (fun x => k))
  (at level 10, x name, m at level 100, k at level 200, only parsing).
Notation "'do' ' p <- m ; k" := (bind m (fun x => match x with p => k end))
  (at level 10, p pattern, m at level 100, k at level 200, only parsing).
Notation "'run' m ; k" := (bind m (fun _ => k))
  (at level 10, m at level 100, k at level 200, only parsing).

Definition lift {A : Type} (r : exn + A) : M A :=
  match r with inl e => raise e | inr a => ret a end.

(** The next remote call's outcome. *)
Definition remote : M (option string) :=
  fun w => match script w with
           | [] => (Ok None, w)
           | f :: rest => (Ok f, mk_world (s3 w) (table w) (gateway w) rest)
           end.

Definition set_s3 (f : gmap string s3_object -> gmap string s3_object) : M unit :=
  fun w => (Ok tt, mk_world (f (s3 w)) (table w) (gateway w) (script w)).
Definition set_table (f : gmap string ToolRecord.t -> gmap string ToolRecord.t) : M unit :=
  fun w => (Ok tt, mk_world (s3 w) (f (table w)) (gateway w) (script w)).
Definition log_gateway (c : gateway_call) : M unit :=
  fun w => (Ok tt, mk_world (s3 w) (table w) (gateway w ++ [c]) (script w)).
Definition get_s3 : M (gmap string s3_object) := fun w => (Ok (s3 w), w).
Definition get_table : M (gmap string ToolRecord.t) := fun w => (Ok (table w), w).

(** What the process reads from outside the modelled sources: the parser
    and the optional linter behind the Python analyzer, the syntax check and
    security scans of the JavaScript analyzer, the clock, and the name of
    the table. *)
Record Externals : Type := {
  ast_parse : string -> parse_outcome;
  bandit : string -> bandit_outcome;
  js_scan : string -> list string * list SecurityIssue.t;
  utcnow : string;
  today : string;
  table_name : string;
}.

(** [int(x)] of a finite float: truncation towards zero. *)
Definition int_of_float (x : float) : Z :=
  match Prim2SF x with
  | S754_finite sign m e =>
      let v := if 0 <=? e then Z.pos m * 2 ^ e else Z.pos m / 2 ^ (- e) in
      if sign then - v else v
  | _ => 0
  end.

(* ===================================================================== *)
(** ** storage/s3_client.py *)
(* ===================================================================== *)

Module S3Client.

Definition client_error {A : Type} (what operation key : string) (msg : string) : M A :=
  raise (StorageError (String.append what msg) (Some operation) (Some key)).

Definition put_object (key : string) (body : s3_object) : M unit :=
  do f <- remote;
  match f with
  | Some msg => client_error "Failed to put object: " "put_object" key msg
  | None => set_s3 (insert key body)
  end.

(** A missing key is [None], not an error. *)
Definition get_object (key : string) : M (option s3_object) :=
  do f <- remote;
  match f with
  | Some msg => client_error "Failed to get object: " "get_object" key msg
  | None => do bucket <- get_s3; ret (bucket !! key)
  end.

Definition delete_object (key : string) : M unit :=
  do f <- remote;
  match f with
  | Some msg => client_error "Failed to delete object: " "delete_object" key msg
  | None => set_s3 (delete key)
  end.

Definition object_exists (key : string) : M bool :=
  do f <- remote;
  match f with
  | Some msg =>
      client_error "Failed to check object existence: " "object_exists" key msg
  | None => do bucket <- get_s3; ret (bool_decide (is_Some (bucket !! key)))
  end.

Definition put_json (key : string) (data : s3_object) : M unit :=
  try_except (put_object key data)
    (fun e => raise (StorageError (String.append "Failed to put JSON object: " (str_exn e))
                                  (Some "put_json"%string) (Some key))).

(** Raw bytes under a JSON key do not decode. *)
Definition get_json (key : string) : M (option s3_object) :=
  try_except
    (do content <- get_object key;
     match content with
     | None => ret None
     | Some (Blob _) => raise (JSONDecodeError "Expecting value")
     | Some doc => ret (Some doc)
     end)
    (fun e =>
       match e with
       | JSONDecodeError m =>
           raise (StorageError (String.append "Failed to parse JSON object: " m)
                               (Some "get_json"%string) (Some key))
       | _ =>
           raise (StorageError (String.append "Failed to get JSON object: " (str_exn e))
                               (Some "get_json"%string) (Some key))
       end).

End S3Client.

(* ===================================================================== *)
(** ** storage/artifact_storage.py *)
(* ===================================================================== *)

Module ArtifactStorage.

Definition compute_code_hash (code language : string) : string :=
  let normalized := Text.strip code in
  let content := String.append language (String.append ":" normalized) in
  SHA256.hexdigest (Text.utf8 content).

Definition get_artifact_key (code_hash : string) : string :=
  String.append "artifacts/" (String.append code_hash ".json").

Definition get_code_key (code_hash language : string) : string :=
  let extension :=
    if String.eqb language "python" then "py"
    else if String.eqb language "javascript" then "js"
    else if String.eqb language "typescript" then "ts"
    else "txt" in
  String.append "code/" (String.append code_hash (String.append "." extension)).

Definition wrap {A : Type} (what operation : string) (resource : option string)
           (m : M A) : M A :=
  try_except m
    (fun e => raise (StorageError (String.append what (str_exn e))
                                  (Some operation) resource)).

Definition store_artifact (artifact : CachedToolArtifact.t) : M string :=
  wrap "Failed to store artifact: " "store_artifact"
       (Some (CachedToolArtifact.code_hash artifact))
    (let key := get_artifact_key (CachedToolArtifact.code_hash artifact) in
     do data <- lift (CachedToolArtifact.to_dict artifact);
     run S3Client.put_json key (ArtifactJson data);
     let code_key := get_code_key (CachedToolArtifact.code_hash artifact)
                                  (CachedToolArtifact.language artifact) in
     run S3Client.put_object code_key (Blob (CachedToolArtifact.validated_code artifact));
     ret key).

Definition retrieve_artifact (code_hash : string) : M (option CachedToolArtifact.t) :=
  wrap "Failed to retrieve artifact: " "retrieve_artifact" (Some code_hash)
    (let key := get_artifact_key code_hash in
     do data <- S3Client.get_json key;
     match data with
     | None => ret None
     | Some (ArtifactJson d) => ret (Some (CachedToolArtifact.from_dict d))
     | Some _ => raise (KeyError "'validationResult'")
     end).

Definition artifact_exists (code_hash : string) : M bool :=
  wrap "Failed to check artifact existence: " "artifact_exists" (Some code_hash)
    (S3Client.object_exists (get_artifact_key code_hash)).

Definition update_usage_count (code_hash : string) : M unit :=
  wrap "Failed to update usage count: " "update_usage_count" (Some code_hash)
    (do artifact <- retrieve_artifact code_hash;
     match artifact with
     | None =>
         raise (StorageError (String.append "Artifact not found: " code_hash)
                             (Some "update_usage_count"%string) (Some code_hash))
     | Some artifact =>
         let artifact := CachedToolArtifact.increment_usage artifact in
         run store_artifact artifact;
         ret tt
     end).

Definition delete_artifact (code_hash language : string) : M unit :=
  wrap "Failed to delete artifact: " "delete_artifact" (Some code_hash)
    (let artifact_key := get_artifact_key code_hash in
     run S3Client.delete_object artifact_key;
     let code_key := get_code_key code_hash language in
     S3Client.delete_object code_key).

Definition create_artifact_bundle (X : Externals) (code language : string)
           (validation_result : result_value)
           (execution_metadata : ExecutionMetadata.t)
           (dependencies : option (list string)) : CachedToolArtifact.t :=
  let code_hash := compute_code_hash code language in
  let now := utcnow X in
  CachedToolArtifact.mk code_hash code validation_result
    (default [] dependencies) execution_metadata now 0 language (Some code).

(** [retrieve_code]: the object under the code key, decoded.  [dumps] is
    the text of a stored JSON document. *)
Definition retrieve_code (dumps : s3_object -> string) (code_hash language : string)
  : M (option string) :=
  wrap "Failed to retrieve code: " "retrieve_code" (Some code_hash)
    (let key := get_code_key code_hash language in
     do content <- S3Client.get_object key;
     match content with
     | None => ret None
     | Some (Blob body) => ret (Some body)
     | Some document => ret (Some (dumps document))
     end).

End ArtifactStorage.

(* ===================================================================== *)
(** ** validation/validation_cache.py *)
(* ===================================================================== *)

Module ValidationCache.

Definition convert_to_simple_result (detailed : ValidationResult.t)
  : CachedValidationResult.t :=
  CachedValidationResult.mk
    (ValidationResult.is_valid detailed)
    (ValidationResult.errors detailed)
    (ValidationResult.warnings detailed)
    (map SecurityIssue.message (ValidationResult.security_issues detailed)).

Definition cached_issue (issue : string) : SecurityIssue.t :=
  SecurityIssue.mk HIGH "cached_issue" issue None None.

Definition convert_to_detailed_result (simple : CachedValidationResult.t)
           (code_hash language : string) : ValidationResult.t :=
  let security_issues := map cached_issue (CachedValidationResult.security_issues simple) in
  ValidationResult.mk
    (CachedValidationResult.is_valid simple) language code_hash
    (CachedValidationResult.errors simple)
    (CachedValidationResult.warnings simple)
    security_issues None None.

Definition get_cached_validation (code language : string)
  : M (option ValidationResult.t) :=
  try_except
    (let code_hash := ArtifactStorage.compute_code_hash code language in
     do present <- ArtifactStorage.artifact_exists code_hash;
     if negb present then ret None else
     do artifact <- ArtifactStorage.retrieve_artifact code_hash;
     match artifact with
     | None => ret None
     | Some artifact =>
         match CachedToolArtifact.validation_result artifact with
         | SimpleResult simple =>
             ret (Some (convert_to_detailed_result simple code_hash language))
         | ResultTuple _ _ =>
             raise (AttributeError "'tuple' object has no attribute 'security_issues'")
         end
     end)
    (fun _ => ret None).

Definition create_execution_metadata (validation_result : ValidationResult.t)
  : ExecutionMetadata.t :=
  match ValidationResult.resource_estimate validation_result with
  | Some est =>
      ExecutionMetadata.mk
        (ResourceEstimate.estimated_memory_mb est)
        (int_of_float (PrimFloat.mul (ResourceEstimate.estimated_cpu_seconds est)
                                     1000%float))
        30 false false
  | None => ExecutionMetadata.mk 128 1000 30 false false
  end.

(** A failure to write the audit entry is printed and dropped. *)
Definition log_validation_audit (X : Externals) (code_hash language : string)
           (is_valid has_critical_issues : bool) (action : string) : M unit :=
  try_except
    (let timestamp := String.append (utcnow X) "Z" in
     let audit := Build_audit_entry timestamp action code_hash language
                                    is_valid has_critical_issues in
     let key :=
       String.append "audit-logs/"
         (String.append (today X)
            (String.append "/"
               (String.append code_hash
                  (String.append "-" (String.append timestamp ".json"))))) in
     S3Client.put_json key (AuditJson audit))
    (fun _ => ret tt).

Definition cache_validation_result (X : Externals) (code language : string)
           (validation_result : ValidationResult.t)
           (dependencies : option (list string)) : M string :=
  ArtifactStorage.wrap "Failed to cache validation result: " "cache_validation_result" None
    (let code_hash := ArtifactStorage.compute_code_hash code language in
     let simple_result := convert_to_simple_result validation_result in
     let execution_metadata := create_execution_metadata validation_result in
     let artifact :=
       ArtifactStorage.create_artifact_bundle X code language
         (SimpleResult simple_result) execution_metadata dependencies in
     run ArtifactStorage.store_artifact artifact;
     run log_validation_audit X code_hash language
           (ValidationResult.is_valid validation_result)
           (ValidationResult.has_critical_issues validation_result) "validated";
     ret code_hash).

Definition invalidate_cache (X : Externals) (code_hash language : string) : M unit :=
  ArtifactStorage.wrap "Failed to invalidate cache: " "invalidate_cache" (Some code_hash)
    (run ArtifactStorage.delete_artifact code_hash language;
     log_validation_audit X code_hash language false false "invalidated").

End ValidationCache.

(* ===================================================================== *)
(** ** validation/validator.py *)
(* ===================================================================== *)

Module CodeValidator.

Definition run_analyzer (X : Externals) (code language : string) : ValidationResult.t :=
  if String.eqb language "python"
  then PythonAnalyzer.analyze (ast_parse X) (bandit X) code
  else JavaScriptAnalyzer.analyze (js_scan X) code language.

Definition validate (X : Externals) (code language : string) : exn + ValidationResult.t :=
  if Text.blank code then
    inl (ValidationError "Code cannot be empty" ["Empty code provided"%string] [] [])
  else if negb (ToolDefinition.supported_language language) then
    inl (ValidationError (String.append "Unsupported language: " language)
           [String.append "Language '" (String.append language "' is not supported")]
           [] [])
  else
    let result := run_analyzer X code language in
    let result :=
      ValidationResult.set_validation_timestamp
        (Some (String.append (utcnow X) "Z")) result in
    if negb (ValidationResult.is_valid result) then
      inl (ValidationError "Code validation failed"
             (ValidationResult.errors result)
             (ValidationResult.warnings result)
             (map (fun issue => IssueText [Lit (SecurityIssue.message issue)])
                  (ValidationResult.security_issues result)))
    else inr result.

(** On a [ValidationError] the analyzer is run again and its result
    returned as it is. *)
Definition validate_safe (X : Externals) (code language : string) : ValidationResult.t :=
  match validate X code language with
  | inr result => result
  | inl _ => run_analyzer X code language
  end.

End CodeValidator.

(* ===================================================================== *)
(** ** validation/validation_service.py *)
(* ===================================================================== *)

Module ValidationService.

(** The fields set by [__init__]. *)
Record t : Type := mk {
  policy : SecurityPolicy.t;
  enable_cache : bool;
}.

Definition critical_messages (violations : list PolicyViolation.t) : list issue_entry :=
  map (fun v => IssueText (PolicyViolation.message v))
      (filter (fun v => PolicyViolation.severity v = "critical"%string) violations).

(** Steps 2 to 5: analysis, policy evaluation, the admission decision,
    the write to the cache. *)
Definition validate_fresh (self : t) (X : Externals) (code language : string)
           (dependencies : option (list string))
  : M (ValidationResult.t * list PolicyViolation.t) :=
  let validation_result := CodeValidator.validate_safe X code language in
  let violations := PolicyEvaluator.evaluate (policy self) validation_result in
  let has_critical := PolicyEvaluator.has_critical_violations violations in
  if has_critical || negb (ValidationResult.is_valid validation_result) then
    raise (ValidationError "Code validation failed due to security policy violations"
             (ValidationResult.errors validation_result)
             (ValidationResult.warnings validation_result)
             (critical_messages violations))
  else
    run (if enable_cache self && ValidationResult.is_valid validation_result
         then try_except
                (run ValidationCache.cache_validation_result X code language
                       validation_result dependencies;
                 ret tt)
                (fun _ => ret tt)
         else ret tt);
    ret (validation_result, violations).

Definition validate_code (self : t) (X : Externals) (code language : string)
           (use_cache : bool) (dependencies : option (list string))
  : M (ValidationResult.t * list PolicyViolation.t) :=
  if enable_cache self && use_cache then
    do cached_result <- ValidationCache.get_cached_validation code language;
    match cached_result with
    | Some cached_result =>
        let violations := PolicyEvaluator.evaluate (policy self) cached_result in
        run try_except
              (let code_hash := ArtifactStorage.compute_code_hash code language in
               ArtifactStorage.update_usage_count code_hash)
              (fun _ => ret tt);
        ret (cached_result, violations)
    | None => validate_fresh self X code language dependencies
    end
  else validate_fresh self X code language dependencies.

(** [validate_code_safe]: on a [ValidationError] the code is analysed and
    evaluated again, and that result returned. *)
Definition validate_code_safe (self : t) (X : Externals) (code language : string)
           (use_cache : bool) (dependencies : option (list string))
  : M (ValidationResult.t * list PolicyViolation.t) :=
  try_except
    (validate_code self X code language use_cache dependencies)
    (fun e =>
       match e with
       | ValidationError _ _ _ _ =>
           let validation_result := CodeValidator.validate_safe X code language in
           let violations := PolicyEvaluator.evaluate (policy self) validation_result in
           ret (validation_result, violations)
       | _ => raise e
       end).

(** [invalidate_cache_for_code]: a failure is printed and dropped. *)
Definition invalidate_cache_for_code (self : t) (X : Externals) (code language : string)
  : M unit :=
  if negb (enable_cache self) then ret tt
  else
    try_except
      (let code_hash := ArtifactStorage.compute_code_hash code language in
       ValidationCache.invalidate_cache X code_hash language)
      (fun _ => ret tt).

End ValidationService.

(* ===================================================================== *)
(** ** repositories/dynamodb_client.py, repositories/tool_repository.py *)
(* ===================================================================== *)

Module DynamoDBClient.

Definition client_error {A : Type} (X : Externals) (what operation msg : string) : M A :=
  raise (StorageError (String.append what msg) (Some operation) (Some (table_name X))).

Definition put_item (X : Externals) (item : ToolRecord.t) : M unit :=
  do f <- remote;
  match f with
  | Some msg => client_error X "Failed to put item: " "put_item" msg
  | None => set_table (insert (ToolRecord.tool_id item) item)
  end.

Definition get_item (X : Externals) (tool_id : string) : M (option ToolRecord.t) :=
  do f <- remote;
  match f with
  | Some msg => client_error X "Failed to get item: " "get_item" msg
  | None => do items <- get_table; ret (items !! tool_id)
  end.

(** [SET] of some attributes of the item under [tool_id].  Both callers
    update an item they have just read. *)
Definition update_item (X : Externals) (tool_id : string)
           (set_attributes : ToolRecord.t -> ToolRecord.t) : M unit :=
  do f <- remote;
  match f with
  | Some msg => client_error X "Failed to update item: " "update_item" msg
  | None => set_table (alter set_attributes tool_id)
  end.

Definition delete_item (X : Externals) (tool_id : string) : M unit :=
  do f <- remote;
  match f with
  | Some msg => client_error X "Failed to delete item: " "delete_item" msg
  | None => set_table (delete tool_id)
  end.

(** A query on the code-hash index with [Limit=limit]. *)
Definition query_code_hash (X : Externals) (code_hash : string) (limit : nat)
  : M (list ToolRecord.t) :=
  do f <- remote;
  match f with
  | Some msg => client_error X "Failed to query items: " "query" msg
  | None =>
      do items <- get_table;
      ret (take limit
             (filter (fun item => ToolRecord.code_hash item = Some code_hash)
                     (map_to_list items).*2))
  end.

End DynamoDBClient.

Module ToolRepository.

Definition wrap {A : Type} (what operation : string) (resource : option string)
           (m : M A) : M A :=
  ArtifactStorage.wrap what operation resource m.

Definition create (X : Externals) (tool_record : ToolRecord.t) : M ToolRecord.t :=
  wrap "Failed to create tool record: " "create" (Some (ToolRecord.tool_id tool_record))
    (let item := ToolRecord.to_dynamodb_item tool_record in
     run DynamoDBClient.put_item X item;
     ret tool_record).

Definition get_by_id (X : Externals) (tool_id : string) : M (option ToolRecord.t) :=
  wrap "Failed to get tool record: " "get_by_id" (Some tool_id)
    (DynamoDBClient.get_item X tool_id).

(** The attributes named in the update expression of [update]. *)
Definition set_mutable_fields (r : ToolRecord.t) (item : ToolRecord.t) : ToolRecord.t :=
  ToolRecord.mk
    (ToolRecord.tool_id item) (ToolRecord.agent_id item)
    (ToolRecord.name r) (ToolRecord.description r) (ToolRecord.version r)
    (ToolRecord.status r) (ToolRecord.code_artifact_s3_key r) (ToolRecord.schema r)
    (ToolRecord.created_at item) (ToolRecord.updated_at r)
    (ToolRecord.execution_count item) (ToolRecord.last_executed item)
    (ToolRecord.code_hash item) (ToolRecord.language item)
    (ToolRecord.metadata r).

Definition set_updated_at (now : string) (r : ToolRecord.t) : ToolRecord.t :=
  ToolRecord.mk
    (ToolRecord.tool_id r) (ToolRecord.agent_id r) (ToolRecord.name r)
    (ToolRecord.description r) (ToolRecord.version r) (ToolRecord.status r)
    (ToolRecord.code_artifact_s3_key r) (ToolRecord.schema r)
    (ToolRecord.created_at r) now (ToolRecord.execution_count r)
    (ToolRecord.last_executed r) (ToolRecord.code_hash r) (ToolRecord.language r)
    (ToolRecord.metadata r).

Definition update (X : Externals) (tool_record : ToolRecord.t) : M ToolRecord.t :=
  wrap "Failed to update tool record: " "update" (Some (ToolRecord.tool_id tool_record))
    (let tool_record := set_updated_at (utcnow X) tool_record in
     run DynamoDBClient.update_item X (ToolRecord.tool_id tool_record)
           (set_mutable_fields tool_record);
     ret tool_record).

Definition delete (X : Externals) (tool_id : string) : M unit :=
  wrap "Failed to delete tool record: " "delete" (Some tool_id)
    (DynamoDBClient.delete_item X tool_id).

Definition find_by_code_hash (X : Externals) (code_hash : string)
  : M (option ToolRecord.t) :=
  wrap "Failed to find tool by code hash: " "find_by_code_hash" (Some code_hash)
    (do items <- DynamoDBClient.query_code_hash X code_hash 1;
     match items with
     | item :: _ => ret (Some item)
     | [] => ret None
     end).

Definition set_status (status : ToolStatus) (now : string) (item : ToolRecord.t)
  : ToolRecord.t :=
  ToolRecord.mk
    (ToolRecord.tool_id item) (ToolRecord.agent_id item) (ToolRecord.name item)
    (ToolRecord.description item) (ToolRecord.version item) status
    (ToolRecord.code_artifact_s3_key item) (ToolRecord.schema item)
    (ToolRecord.created_at item) now (ToolRecord.execution_count item)
    (ToolRecord.last_executed item) (ToolRecord.code_hash item)
    (ToolRecord.language item) (ToolRecord.metadata item).

Definition update_status (X : Externals) (tool_id : string) (status : ToolStatus)
  : M unit :=
  wrap "Failed to update tool status: " "update_status" (Some tool_id)
    (let now := utcnow X in
     DynamoDBClient.update_item X tool_id (set_status status now)).

End ToolRepository.

(* ===================================================================== *)
(** ** agentcore/agentcore_client.py *)
(* ===================================================================== *)

(** The client prepares each request and turns every failure into a
    [RegistrationError]; the request's outcome is the next entry of the
    script, and a request that succeeds is recorded in [gateway]. *)
Module AgentCoreClient.

Definition register_tool (tool_record : ToolRecord.t) : M unit :=
  do f <- remote;
  match f with
  | Some msg =>
      raise (RegistrationError
               (String.append "Failed to register tool with AgentCore: " msg)
               (Some (ToolRecord.tool_id tool_record))
               (Some (ToolRecord.agent_id tool_record)))
  | None =>
      log_gateway (Publish (ToolRecord.tool_id tool_record)
                           (ToolRecord.agent_id tool_record))
  end.

Definition deregister_tool (tool_id agent_id : string) : M unit :=
  do f <- remote;
  match f with
  | Some msg =>
      raise (RegistrationError
               (String.append "Failed to deregister tool from AgentCore: " msg)
               (Some tool_id) (Some agent_id))
  | None => log_gateway (Unpublish tool_id agent_id)
  end.

Definition sync_tool_metadata (tool_id : string) : M unit :=
  do f <- remote;
  match f with
  | Some msg =>
      raise (RegistrationError
               (String.append "Failed to sync tool metadata with AgentCore: " msg)
               (Some tool_id) None)
  | None => log_gateway (SyncMetadata tool_id)
  end.

End AgentCoreClient.

(* ===================================================================== *)
(** ** agentcore/tool_lifecycle.py *)
(* ===================================================================== *)

Module ToolLifecycleManager.

(** Reading an attribute of the pair returned by [validate_code]. *)
Definition tuple_getattr {A : Type}
           (value : ValidationResult.t * list PolicyViolation.t) (attr : string) : M A :=
  raise (AttributeError
           (String.append "'tuple' object has no attribute '" (String.append attr "'"))).

(** [except KNOWN: raise] followed by
    [except Exception as e: raise RegistrationError(...)]; [known] tells
    the exceptions of the first clause. *)
Definition reraise_known {A : Type} (known : exn -> bool) (what : string)
           (tool_id : option string) (agent_id : string) (m : M A) : M A :=
  try_except m
    (fun e =>
       if known e then raise e
       else raise (RegistrationError (String.append what (str_exn e))
                                     tool_id (Some agent_id))).

(** [(ValidationError, RegistrationError, StorageError)] *)
Definition known_errors (e : exn) : bool :=
  is_ValidationError e || is_RegistrationError e || is_StorageError e.

(** [(RegistrationError, StorageError)] *)
Definition known_deregistration_errors (e : exn) : bool :=
  is_RegistrationError e || is_StorageError e.

Definition default_execution_metadata : ExecutionMetadata.t :=
  ExecutionMetadata.mk 128 1000 30 false false.

(** The cache-miss branch shared by [register_tool] and [update_tool]:
    validate, then build and store the artifact. *)
Definition validate_and_store (service : ValidationService.t) (X : Externals)
           (tool_definition : ToolDefinition.t) : M string :=
  do validation_result <-
    ValidationService.validate_code service X
      (ToolDefinition.code tool_definition)
      (ToolDefinition.language tool_definition) true None;
  do is_valid <- tuple_getattr (A := bool) validation_result "is_valid";
  if negb is_valid then
    do errors <- tuple_getattr (A := list string) validation_result "errors";
    do warnings <- tuple_getattr (A := list string) validation_result "warnings";
    do issues <- tuple_getattr (A := list SecurityIssue.t) validation_result
                   "security_issues";
    raise (ValidationError "Code validation failed" errors warnings
                           (map IssueObject issues))
  else
    let execution_metadata := default_execution_metadata in
    let cached_artifact :=
      ArtifactStorage.create_artifact_bundle X
        (ToolDefinition.code tool_definition)
        (ToolDefinition.language tool_definition)
        (ResultTuple (fst validation_result) (snd validation_result))
        execution_metadata (Some []) in
    ArtifactStorage.store_artifact cached_artifact.

(** Steps 1 to 6 of [register_tool]; [uuid] is the value of
    [str(uuid.uuid4())]. *)
Definition persist_record (service : ValidationService.t) (X : Externals)
           (tool_definition : ToolDefinition.t) (agent_id : string)
           (skip_cache : bool) (uuid : string) : M ToolRecord.t :=
  let structure_errors := ToolDefinition.validate_structure tool_definition in
  match structure_errors with
  | _ :: _ =>
      raise (ValidationError "Tool definition structure is invalid"
                             structure_errors [] [])
  | [] =>
      let code_hash :=
        ArtifactStorage.compute_code_hash
          (ToolDefinition.code tool_definition)
          (ToolDefinition.language tool_definition) in
      do cached_artifact <-
        (if negb skip_cache
         then ArtifactStorage.retrieve_artifact code_hash
         else ret None);
      run (match cached_artifact with
           | None =>
               run validate_and_store service X tool_definition;
               ret tt
           | Some _ => ArtifactStorage.update_usage_count code_hash
           end);
      let tool_id := uuid in
      let artifact_key := ArtifactStorage.get_artifact_key code_hash in
      let tool_record :=
        ToolRecord.create_new (utcnow X) tool_id agent_id
          (ToolDefinition.name tool_definition)
          (ToolDefinition.description tool_definition)
          (ToolDefinition.version tool_definition)
          artifact_key
          (ToolDefinition.schema tool_definition)
          code_hash
          (ToolDefinition.language tool_definition)
          (ToolDefinition.metadata tool_definition) in
      run ToolRepository.create X tool_record;
      ret tool_record
  end.

(** Step 7 of [register_tool]: publish, and on a [RegistrationError]
    delete the record and raise the same error again. *)
Definition publish_or_rollback (X : Externals) (tool_record : ToolRecord.t)
  : M ToolRecord.t :=
  run try_except
        (AgentCoreClient.register_tool tool_record)
        (fun e =>
           match e with
           | RegistrationError _ _ _ =>
               run try_except
                     (ToolRepository.delete X (ToolRecord.tool_id tool_record))
                     (fun rollback_error => ret tt);
               raise e
           | _ => raise e
           end);
  ret tool_record.

Definition register_tool (service : ValidationService.t) (X : Externals)
           (tool_definition : ToolDefinition.t) (agent_id : string)
           (skip_cache : bool) (uuid : string) : M ToolRecord.t :=
  reraise_known known_errors "Tool registration failed: " None agent_id
    (do tool_record <- persist_record service X tool_definition agent_id skip_cache uuid;
     publish_or_rollback X tool_record).

Definition not_found {A : Type} (tool_id : string) : M A :=
  raise (RegistrationError (String.append "Tool not found: " tool_id)
                           (Some tool_id) None).

Definition not_owner {A : Type} (tool_id agent_id : string) : M A :=
  raise (RegistrationError
           (String.append "Agent "
              (String.append agent_id (String.append " does not own tool " tool_id)))
           (Some tool_id) (Some agent_id)).

(** Step 5 of [update_tool]: the assignments to the loaded record. *)
Definition assign_definition (tool_definition : ToolDefinition.t)
           (artifact_key new_code_hash : string) (r : ToolRecord.t) : ToolRecord.t :=
  ToolRecord.mk
    (ToolRecord.tool_id r) (ToolRecord.agent_id r)
    (ToolDefinition.name tool_definition)
    (ToolDefinition.description tool_definition)
    (ToolDefinition.version tool_definition)
    (ToolRecord.status r)
    artifact_key
    (ToolDefinition.schema tool_definition)
    (ToolRecord.created_at r) (ToolRecord.updated_at r)
    (ToolRecord.execution_count r) (ToolRecord.last_executed r)
    (Some new_code_hash)
    (ToolDefinition.language tool_definition)
    (ToolDefinition.metadata tool_definition).

Definition update_tool (service : ValidationService.t) (X : Externals)
           (tool_id : string) (tool_definition : ToolDefinition.t)
           (agent_id : string) : M ToolRecord.t :=
  reraise_known known_errors "Tool update failed: " (Some tool_id) agent_id
    (do existing_tool <- ToolRepository.get_by_id X tool_id;
     match existing_tool with
     | None => not_found tool_id
     | Some existing_tool =>
         if negb (String.eqb (ToolRecord.agent_id existing_tool) agent_id)
         then not_owner tool_id agent_id
         else
           let structure_errors := ToolDefinition.validate_structure tool_definition in
           match structure_errors with
           | _ :: _ =>
               raise (ValidationError "Tool definition structure is invalid"
                                      structure_errors [] [])
           | [] =>
               let new_code_hash :=
                 ArtifactStorage.compute_code_hash
                   (ToolDefinition.code tool_definition)
                   (ToolDefinition.language tool_definition) in
               let code_changed :=
                 negb (bool_decide (Some new_code_hash = ToolRecord.code_hash existing_tool)) in
               do artifact_key <-
                 (if code_changed
                  then validate_and_store service X tool_definition
                  else ret (ToolRecord.code_artifact_s3_key existing_tool));
               let existing_tool :=
                 assign_definition tool_definition artifact_key new_code_hash
                                   existing_tool in
               do updated_tool <- ToolRepository.update X existing_tool;
               run try_except
                     (AgentCoreClient.sync_tool_metadata tool_id)
                     (fun e =>
                        match e with
                        | RegistrationError _ _ _ => ret tt
                        | _ => raise e
                        end);
               ret updated_tool
           end
     end).

Definition deregister_tool (X : Externals) (tool_id agent_id : string)
           (delete_artifact : bool) : M unit :=
  reraise_known known_deregistration_errors "Tool deregistration failed: "
                (Some tool_id) agent_id
    (do tool_record <- ToolRepository.get_by_id X tool_id;
     match tool_record with
     | None => not_found tool_id
     | Some tool_record =>
         if negb (String.eqb (ToolRecord.agent_id tool_record) agent_id)
         then not_owner tool_id agent_id
         else
           run try_except
                 (AgentCoreClient.deregister_tool tool_id agent_id)
                 (fun e =>
                    match e with
                    | RegistrationError _ _ _ => ret tt
                    | _ => raise e
                    end);
           run (if delete_artifact
                then ToolRepository.delete X tool_id
                else ToolRepository.update_status X tool_id INACTIVE);
           match delete_artifact, ToolRecord.code_hash tool_record with
           | true, Some code_hash =>
               if Text.truthy code_hash then
                 do other_tools <- ToolRepository.find_by_code_hash X code_hash;
                 match other_tools with
                 | Some other =>
                     if String.eqb (ToolRecord.tool_id other) tool_id
                     then ArtifactStorage.delete_artifact code_hash
                            (ToolRecord.language tool_record)
                     else ret tt
                 | None =>
                     ArtifactStorage.delete_artifact code_hash
                       (ToolRecord.language tool_record)
                 end
               else ret tt
           | _, _ => ret tt
           end
     end).



End ToolLifecycleManager.

(* ===================================================================== *)
(** ** Reference forms used by the statements below *)
(* ===================================================================== *)

(** The five resource checks in their fixed order, each with the condition
    under which it reports. *)
Definition resource_checks (l : ResourceLimits.t) (e : ResourceEstimate.t)
  : list (bool * PolicyViolation.t) :=
  [ (ResourceEstimate.estimated_memory_mb e >? ResourceLimits.max_memory_mb l,
     PolicyEvaluator.memory_violation e l);
    (PolicyEvaluator.fgt (ResourceEstimate.estimated_cpu_seconds e)
                         (ResourceLimits.max_cpu_seconds l),
     PolicyEvaluator.cpu_violation e l);
    (ResourceEstimate.complexity_score e >? ResourceLimits.max_complexity l,
     PolicyEvaluator.complexity_violation e l);
    (ResourceEstimate.max_depth e >? ResourceLimits.max_nesting_depth l,
     PolicyEvaluator.depth_violation e l);
    (ResourceEstimate.has_recursion e && negb (ResourceLimits.allow_recursion l),
     PolicyEvaluator.recursion_violation) ].

(** The violations of the checks that fire, in the order of the checks. *)
Definition fired_checks (l : ResourceLimits.t) (e : ResourceEstimate.t)
  : list PolicyViolation.t :=
  map snd (List.filter fst (resource_checks l e)).

Definition fired_for (policy : SecurityPolicy.t) (r : ValidationResult.t)
  : list PolicyViolation.t :=
  match ValidationResult.resource_estimate r with
  | Some e => fired_checks (SecurityPolicy.resource_limits policy) e
  | None => []
  end.

(** The closed forms of the two estimates, as functions of the final
    complexity and flags, with the factors in the order of the documented
    formulas: [2 * complexity] and [0.05 * complexity], where the code
    multiplies the complexity on the left.  An addend in brackets is added
    only when its flag is set. *)
Definition plus_if (flag : bool) (x addend : float) : float :=
  if flag then PrimFloat.add x addend else x.


Definition cpu_formula (complexity : Z) (has_loops has_recursion : bool) : float :=
  fmin
    (plus_if has_recursion
       (plus_if has_loops
          (PrimFloat.add 0.1%float (PrimFloat.mul 0.05%float (float_of_int complexity)))
          0.5%float)
       1.0%float)
    30.0%float.

(** The number of nodes of the trees in a queue of [ast.walk]. *)
Fixpoint sizes (todo : list ast) : nat :=
  match todo with
  | [] => O
  | node :: rest => (PythonAnalyzer.size node + sizes rest)%nat
  end.










(** The next remote call does not fail. *)
Definition next_call_succeeds (w : world) : Prop :=
  match script w with
  | Some _ :: _ => False
  | _ => True
  end.

(** Nothing outside the process has changed between two states: the same
    bucket, the same table, the same requests received by the gateway. *)
Definition same_stores (w w' : world) : Prop :=
  s3 w' = s3 w /\ table w' = table w /\ gateway w' = gateway w.

(** The error raised by the ownership check. *)
Definition ownership_error (tool_id agent_id : string) : exn :=
  RegistrationError
    (String.append "Agent "
       (String.append agent_id (String.append " does not own tool " tool_id)))
    (Some tool_id) (Some agent_id).



(** The records of a table are stored under their own tool id, as
    [put_item] writes them. *)
Definition table_keyed (w : world) : Prop :=
  forall key record, table w !! key = Some record -> ToolRecord.tool_id record = key.

(** The record under [key] references the content hash [code_hash]. *)
Definition references (w : world) (code_hash key : string) : Prop :=
  exists record, table w !! key = Some record
                 /\ ToolRecord.code_hash record = Some code_hash.

(** The artifact of a content hash is gone from the bucket: neither its
    metadata document nor its code blob is there. *)
Definition artifact_gone (w : world) (code_hash language : string) : Prop :=
  s3 w !! ArtifactStorage.get_artifact_key code_hash = None
  /\ s3 w !! ArtifactStorage.get_code_key code_hash language = None.

(** The state after one remote call that changes nothing. *)
Definition advance (w : world) : world :=
  mk_world (s3 w) (table w) (gateway w) (tail (script w)).

(** The items that a query on the code-hash index selects from. *)
Definition matching_items (items : gmap string ToolRecord.t) (code_hash : string)
  : list ToolRecord.t :=
  filter (fun item => ToolRecord.code_hash item = Some code_hash)
         (map_to_list items).*2.

(** Deregistering, with [delete_artifact=True], each tool of a list in turn;
    a tool is given by its id and the agent that calls. *)
Fixpoint deregister_each (X : Externals) (tools : list (string * string)) : M unit :=
  match tools with
  | [] => ret tt
  | (tool_id, agent_id) :: rest =>
      bind (ToolLifecycleManager.deregister_tool X tool_id agent_id true)
           (fun _ => deregister_each X rest)
  end.

(** The tool [(id, agent)] is in the table, is owned by [agent], and
    references the content hash under the given language. *)
Definition owned_reference (w : world) (code_hash language : string)
           (tool : string * string) : Prop :=
  exists record,
    table w !! tool.1 = Some record
    /\ ToolRecord.agent_id record = tool.2
    /\ ToolRecord.code_hash record = Some code_hash
    /\ ToolRecord.language record = language.

(** A computation that touches the bucket and the script only: the table
    and the gateway are as before, whatever it returns. *)
Definition bucket_only {A : Type} (m : M A) : Prop :=
  forall w, table (snd (m w)) = table w /\ gateway (snd (m w)) = gateway w.

(** The error in which [register_tool] wraps the AttributeError raised by
    reading [is_valid] from the pair that [validate_code] returns. *)
Definition tuple_error (agent_id : string) : exn :=
  RegistrationError
    "Tool registration failed: 'tuple' object has no attribute 'is_valid'"
    None (Some agent_id).

(* ===================================================================== *)
(** ** Sample inputs *)
(* ===================================================================== *)


(** [ast.parse] of [def f(n): return f(n-1)]. *)
Definition countdown_source : string := "def f(n): return f(n-1)".

Definition countdown_tree : ast :=
  Node 0 KModule 0
    [ Node 1 (KFunctionDef "f") 1
        [ Node 2 (KOther "arguments") 0 [ Node 4 (KOther "arg") 1 [] ];
          Node 3 (KOther "Return") 1
            [ Node 5 KCall 1
                [ Node 6 (KName "f") 1 [ Node 8 (KOther "Load") 0 [] ];
                  Node 7 (KOther "BinOp") 1
                    [ Node 9 (KName "n") 1 [ Node 8 (KOther "Load") 0 [] ];
                      Node 10 (KOther "Sub") 0 [];
                      Node 11 (KOther "Constant") 1 [] ] ] ] ] ].

(** An environment for the runs below.  Its parser is given by its value on
    the one Python source that is submitted; the linter is not installed. *)
Definition sample_externals : Externals :=
  {| ast_parse := fun code =>
       if String.eqb code countdown_source then Parsed countdown_tree
       else SyntaxError (Some 1) "invalid syntax";
     bandit := fun _ => BanditNotFound;
     js_scan := fun _ => ([], []);
     utcnow := "2025-01-01T00:00:00";
     today := "2025/01/01";
     table_name := "tools" |}.

Definition default_service : ValidationService.t :=
  ValidationService.mk SecurityPolicyManager.get_default_policy true.

Definition permissive_service : ValidationService.t :=
  ValidationService.mk SecurityPolicyManager.get_permissive_policy true.

Definition sample_schema : ToolSchema.t :=
  ToolSchema.mk [("n"%string, ParameterSchema.mk "integer" "start value" true)]
                "integer" "the result".

Definition countdown_tool : ToolDefinition.t :=
  ToolDefinition.mk "countdown" "Counts down from n" "1.0.0" "python"
                    countdown_source sample_schema [].

Definition countdown_hash : string :=
  Eval vm_compute in ArtifactStorage.compute_code_hash countdown_source "python".

(** A record of the tool, owned by agent "alice". *)
Definition alice_record (tool_id : string) : ToolRecord.t :=
  ToolRecord.create_new "2025-01-01T00:00:00" tool_id "alice"
    "countdown" "Counts down from n" "1.0.0"
    (ArtifactStorage.get_artifact_key countdown_hash) sample_schema
    countdown_hash "python" [].

Definition empty_world : world := mk_world ∅ ∅ [] [].

(** A table holding one tool of alice, nothing else. *)
Definition one_tool_world : world :=
  mk_world ∅ {[ "tool-1"%string := alice_record "tool-1" ]} [] [].

(** The artifact of the countdown source as the validation cache stores it. *)
Definition countdown_artifact : CachedToolArtifact.dict :=
  CachedToolArtifact.mk_dict countdown_hash countdown_source
    (CachedValidationResult.mk true [] [] []) []
    (ExecutionMetadata.mk 76 1400 30 false false)
    "2025-01-01T00:00:00" 0 "python" (Some countdown_source).




(** Two tools of two agents over the same source, with the artifact and
    its code blob in the bucket; no remote call fails. *)
Definition bob_record (tool_id : string) : ToolRecord.t :=
  ToolRecord.create_new "2025-01-02T00:00:00" tool_id "bob"
    "countdown" "Counts down from n" "1.0.0"
    (ArtifactStorage.get_artifact_key countdown_hash) sample_schema
    countdown_hash "python" [].

Definition shared_world : world :=
  mk_world
    {[ ArtifactStorage.get_artifact_key countdown_hash := ArtifactJson countdown_artifact;
       ArtifactStorage.get_code_key countdown_hash "python" := Blob countdown_source ]}
    {[ "tool-A"%string := alice_record "tool-A";
       "tool-B"%string := bob_record "tool-B" ]}
    [] [].

(** The validation of the countdown source by the default service, once
    the cache lookup of [register_tool] has missed. *)
Definition countdown_validation
  : outcome (ValidationResult.t * list PolicyViolation.t) * world :=
  ValidationService.validate_code default_service sample_externals
    countdown_source "python" true None (advance empty_world).

Definition countdown_accepted : ValidationResult.t * list PolicyViolation.t :=
  match fst countdown_validation with
  | Ok accepted => accepted
  | Raise _ => (CodeValidator.validate_safe sample_externals countdown_source "python", [])
  end.




(* ===================================================================== *)
(** * Properties *)
(* ===================================================================== *)

Example sha256_abc :
  SHA256.hexdigest (Text.utf8 "abc")
  = "ba7816bf8f01cfea414140de5dae2223b00361a396177a9cb410ff61f20015ad"%string.
Proof. vm_compute. reflexivity. Qed.

(** ** The policy evaluator *)

Lemma fold_left_snoc {A B : Type} (f : A -> B) (l : list A) (init : list B) :
  fold_left (fun acc x => acc ++ [f x]) l init = init ++ map f l.
Proof.
  revert init. induction l as [|x l IH]; intros init; simpl.
  - by rewrite app_nil_r.
  - rewrite IH. by rewrite <- app_assoc.
Qed.

Lemma check_resource_limits_fired (policy : SecurityPolicy.t) (e : ResourceEstimate.t) :
  PolicyEvaluator.check_resource_limits policy e
  = fired_checks (SecurityPolicy.resource_limits policy) e.
Proof.
  unfold PolicyEvaluator.check_resource_limits, fired_checks, resource_checks,
    PolicyEvaluator.append_if.
  cbn [List.filter fst snd map].
  destruct (_ >? _); destruct (PolicyEvaluator.fgt _ _); destruct (_ >? _);
    destruct (_ >? _); destruct (_ && _); reflexivity.
Qed.

Lemma fired_checks_res001 (l : ResourceLimits.t) (e : ResourceEstimate.t) :
  Forall (fun v => PolicyViolation.rule_id v = "RES001"%string
                   /\ PolicyViolation.violation_type v = RESOURCE_LIMIT)
         (fired_checks l e).
Proof.
  unfold fired_checks, resource_checks. cbn [List.filter fst snd map].
  destruct (_ >? _); destruct (PolicyEvaluator.fgt _ _); destruct (_ >? _);
    destruct (_ >? _); destruct (_ && _); cbn [map snd];
    repeat constructor.
Qed.

Lemma evaluate_unfolded (policy : SecurityPolicy.t) (r : ValidationResult.t) :
  PolicyEvaluator.evaluate policy r
  = fired_for policy r
    ++ map PolicyEvaluator.violation_of_issue (ValidationResult.security_issues r).
Proof.
  unfold PolicyEvaluator.evaluate, fired_for. rewrite fold_left_snoc.
  destruct (ValidationResult.resource_estimate r) as [e|]; [|reflexivity].
  by rewrite check_resource_limits_fired.
Qed.

(** C9.  For every validation result and policy, [evaluate] returns first the
    violations of the resource checks that fire, in the fixed order memory,
    cpu, complexity, nesting depth, recursion (each check contributes at most
    one violation, tagged RES001, and only when its condition holds), and
    then exactly one violation per finding in the order of the findings; the
    length of the output is the number of fired checks plus the number of
    findings. *)
Theorem evaluate_checks_then_findings
        (policy : SecurityPolicy.t) (r : ValidationResult.t) :
  PolicyEvaluator.evaluate policy r
  = fired_for policy r
    ++ map PolicyEvaluator.violation_of_issue (ValidationResult.security_issues r)
  /\ Forall (fun v => PolicyViolation.rule_id v = "RES001"%string
                      /\ PolicyViolation.violation_type v = RESOURCE_LIMIT)
            (fired_for policy r)
  /\ length (PolicyEvaluator.evaluate policy r)
     = (length (fired_for policy r)
        + length (ValidationResult.security_issues r))%nat.
Proof.
  split; [apply evaluate_unfolded|]. split.
  - unfold fired_for. destruct (ValidationResult.resource_estimate r).
    + apply fired_checks_res001.
    + constructor.
  - rewrite evaluate_unfolded, length_app, length_map. reflexivity.
Qed.

(** ** Reasoning about runs *)



(** A block whose handler swallows every exception always completes. *)
Lemma try_except_swallow {A : Type} (m : M A) (a0 : A) (w : world) :
  exists a w', try_except m (fun _ => ret a0) w = (Ok a, w').
Proof.
  unfold try_except, ret. destruct (m w) as [[a|e] w']; eauto.
Qed.

(** ** The validation cache *)






(** ** The resource estimators *)

Lemma sizes_app (a b : list ast) : sizes (a ++ b) = (sizes a + sizes b)%nat.
Proof. induction a as [|n a IH]; cbn; [reflexivity | rewrite IH; lia]. Qed.

Lemma size_children (node : ast) :
  PythonAnalyzer.size node = S (sizes (children node)).
Proof.
  destruct node as [i k l cs]. reflexivity.
Qed.

Lemma walk_queue_length (fuel : nat) (todo : list ast) :
  (sizes todo <= fuel)%nat ->
  length (PythonAnalyzer.walk_queue fuel todo) = sizes todo.
Proof.
  revert todo. induction fuel as [|fuel IH]; intros todo Hfuel.
  - destruct todo as [|node rest]; [reflexivity|].
    cbn in Hfuel. rewrite size_children in Hfuel. lia.
  - destruct todo as [|node rest]; [reflexivity|].
    cbn [PythonAnalyzer.walk_queue length sizes].
    cbn [sizes] in Hfuel. rewrite size_children in *.
    rewrite IH; rewrite sizes_app; lia.
Qed.

(** The walk runs to the end of its queue: it yields as many nodes as the
    tree has, so the fuel of [walk_queue] is never what stops it. *)
Lemma walk_visits_every_node (tree : ast) :
  length (PythonAnalyzer.walk tree) = PythonAnalyzer.size tree.
Proof.
  unfold PythonAnalyzer.walk. rewrite walk_queue_length; cbn; lia.
Qed.












(** ** The recursion flag *)







(** ** The content hash *)
















(** ** Ownership *)

Lemma get_by_id_reads (X : Externals) (tool_id : string) (w : world) :
  next_call_succeeds w ->
  exists w', ToolRepository.get_by_id X tool_id w = (Ok (table w !! tool_id), w')
             /\ same_stores w w'.
Proof.
  unfold next_call_succeeds, ToolRepository.get_by_id, ToolRepository.wrap,
    ArtifactStorage.wrap, try_except, DynamoDBClient.get_item, bind, remote,
    get_table, ret, same_stores.
  destruct w as [b t g sc]. cbn.
  destruct sc as [|[msg|] rest]; cbn; intros H; try contradiction; eauto.
Qed.

(** C4.  When the record of the tool can be read and its agent_id differs
    from the caller's, [update_tool] and [deregister_tool] both fail with the
    RegistrationError of the ownership check, and the bucket, the table (so
    every field of the record) and the gateway are as they were before the
    call. *)
Theorem ownership_enforced
        (service : ValidationService.t) (X : Externals) (tool_id agent_id : string)
        (tool_definition : ToolDefinition.t) (delete_artifact : bool)
        (record : ToolRecord.t) (w : world)
        (Hstored : table w !! tool_id = Some record)
        (Hother : ToolRecord.agent_id record <> agent_id)
        (Hread : next_call_succeeds w) :
  (exists w',
      ToolLifecycleManager.update_tool service X tool_id tool_definition agent_id w
      = (Raise (ownership_error tool_id agent_id), w')
      /\ same_stores w w')
  /\ (exists w',
         ToolLifecycleManager.deregister_tool X tool_id agent_id delete_artifact w
         = (Raise (ownership_error tool_id agent_id), w')
         /\ same_stores w w').
Proof.
  destruct (get_by_id_reads X tool_id w Hread) as (w' & Hget & Hsame).
  rewrite Hstored in Hget.
  assert (Hneq : String.eqb (ToolRecord.agent_id record) agent_id = false)
    by (by apply String.eqb_neq).
  split; exists w'; (split; [|exact Hsame]).
  - unfold ToolLifecycleManager.update_tool, ToolLifecycleManager.reraise_known,
      try_except, bind. rewrite Hget, Hneq. reflexivity.
  - unfold ToolLifecycleManager.deregister_tool, ToolLifecycleManager.reraise_known,
      try_except, bind. rewrite Hget, Hneq. reflexivity.
Qed.

Lemma ownership_enforced_witness :
  (exists w',
      ToolLifecycleManager.update_tool default_service sample_externals
        "tool-1" countdown_tool "mallory" one_tool_world
      = (Raise (ownership_error "tool-1" "mallory"), w')
      /\ same_stores one_tool_world w')
  /\ (exists w',
         ToolLifecycleManager.deregister_tool sample_externals
           "tool-1" "mallory" true one_tool_world
         = (Raise (ownership_error "tool-1" "mallory"), w')
         /\ same_stores one_tool_world w').
Proof.
  apply (ownership_enforced default_service sample_externals "tool-1" "mallory"
           countdown_tool true (alice_record "tool-1") one_tool_world).
  - reflexivity.
  - discriminate.
  - exact I.
Defined.

(** ** Registration and its rollback *)




(** ** Deregistration and the shared artifact *)

Lemma get_by_id_eq (X : Externals) (tool_id : string) (w : world) :
  ToolRepository.get_by_id X tool_id w
  = (match script w with
     | Some msg :: _ =>
         Raise (StorageError
                  (String.append "Failed to get tool record: "
                     (String.append "Failed to get item: " msg))
                  (Some "get_by_id"%string) (Some tool_id))
     | _ => Ok (table w !! tool_id)
     end, advance w).
Proof. destruct w as [b t g [|[msg|] sc]]; reflexivity. Qed.

Lemma gateway_deregister_eq (tool_id agent_id : string) (w : world) :
  try_except (AgentCoreClient.deregister_tool tool_id agent_id)
    (fun e => match e with RegistrationError _ _ _ => ret tt | _ => raise e end) w
  = (Ok tt,
     match script w with
     | Some _ :: _ => advance w
     | _ => mk_world (s3 w) (table w) (gateway w ++ [Unpublish tool_id agent_id])
                     (tail (script w))
     end).
Proof. destruct w as [b t g [|[msg|] sc]]; reflexivity. Qed.

Lemma repository_delete_eq (X : Externals) (tool_id : string) (w : world) :
  ToolRepository.delete X tool_id w
  = match script w with
    | Some msg :: _ =>
        (Raise (StorageError
                  (String.append "Failed to delete tool record: "
                     (String.append "Failed to delete item: " msg))
                  (Some "delete"%string) (Some tool_id)),
         advance w)
    | _ => (Ok tt, mk_world (s3 w) (delete tool_id (table w)) (gateway w)
                            (tail (script w)))
    end.
Proof. destruct w as [b t g [|[msg|] sc]]; reflexivity. Qed.

Lemma find_by_code_hash_eq (X : Externals) (code_hash : string) (w : world) :
  ToolRepository.find_by_code_hash X code_hash w
  = (match script w with
     | Some msg :: _ =>
         Raise (StorageError
                  (String.append "Failed to find tool by code hash: "
                     (String.append "Failed to query items: " msg))
                  (Some "find_by_code_hash"%string) (Some code_hash))
     | _ => Ok (head (matching_items (table w) code_hash))
     end, advance w).
Proof.
  unfold matching_items.
  destruct w as [b t g [|[msg|] sc]]; try reflexivity.
  - unfold ToolRepository.find_by_code_hash, ToolRepository.wrap, ArtifactStorage.wrap,
      try_except, bind, DynamoDBClient.query_code_hash, bind, remote, get_table, ret.
    cbn. by destruct (filter _ _).
  - unfold ToolRepository.find_by_code_hash, ToolRepository.wrap, ArtifactStorage.wrap,
      try_except, bind, DynamoDBClient.query_code_hash, bind, remote, get_table, ret.
    cbn. by destruct (filter _ _).
Qed.

Lemma matching_items_elem (items : gmap string ToolRecord.t) (code_hash : string)
      (item : ToolRecord.t) :
  item ∈ matching_items items code_hash
  <-> ToolRecord.code_hash item = Some code_hash
      /\ exists key, items !! key = Some item.
Proof.
  unfold matching_items. rewrite list_elem_of_filter, list_elem_of_fmap. split.
  - intros (Hh & [key item'] & -> & Hin). split; [done|].
    exists key. by apply elem_of_map_to_list.
  - intros (Hh & key & Hk). split; [done|].
    exists (key, item). split; [done|]. by apply elem_of_map_to_list.
Qed.

Lemma head_matching_other (items : gmap string ToolRecord.t)
      (code_hash tool_id other : string) (record : ToolRecord.t) :
  (forall key r, items !! key = Some r -> ToolRecord.tool_id r = key) ->
  other <> tool_id ->
  items !! other = Some record ->
  ToolRecord.code_hash record = Some code_hash ->
  exists item,
    head (matching_items (delete tool_id items) code_hash) = Some item
    /\ String.eqb (ToolRecord.tool_id item) tool_id = false.
Proof.
  intros Hkeyed Hother Hrec Hhash.
  assert (Hin : record ∈ matching_items (delete tool_id items) code_hash).
  { apply matching_items_elem. split; [done|]. exists other.
    by rewrite lookup_delete_ne. }
  destruct (matching_items (delete tool_id items) code_hash) as [|item rest] eqn:Hitems.
  - by apply not_elem_of_nil in Hin.
  - exists item. split; [reflexivity|].
    assert (Hitem : item ∈ matching_items (delete tool_id items) code_hash)
      by (rewrite Hitems; apply list_elem_of_here).
    apply matching_items_elem in Hitem as (_ & key & Hkey).
    apply lookup_delete_Some in Hkey as [Hne Hkey].
    apply Hkeyed in Hkey. apply String.eqb_neq. congruence.
Qed.

Lemma head_matching_none (items : gmap string ToolRecord.t) (code_hash tool_id : string) :
  (forall other record, other <> tool_id -> items !! other = Some record ->
                        ToolRecord.code_hash record <> Some code_hash) ->
  head (matching_items (delete tool_id items) code_hash) = None.
Proof.
  intros Hnone.
  destruct (matching_items (delete tool_id items) code_hash) as [|item rest] eqn:Hitems;
    [reflexivity|].
  assert (Hitem : item ∈ matching_items (delete tool_id items) code_hash)
    by (rewrite Hitems; apply list_elem_of_here).
  apply matching_items_elem in Hitem as (Hh & key & Hkey).
  apply lookup_delete_Some in Hkey as [Hne Hkey].
  exfalso. apply (Hnone key item); [congruence | done | done].
Qed.

Lemma get_by_id_frame (X : Externals) (tool_id : string) (w : world) :
  exists w', same_stores w w'
             /\ (ToolRepository.get_by_id X tool_id w = (Ok (table w !! tool_id), w')
                 \/ exists e, ToolRepository.get_by_id X tool_id w = (Raise e, w')).
Proof.
  rewrite get_by_id_eq. exists (advance w). split; [by repeat split|].
  destruct (script w) as [|[msg|] sc]; eauto.
Qed.

Lemma gateway_deregister_frame (tool_id agent_id : string) (w : world) :
  exists w',
    try_except (AgentCoreClient.deregister_tool tool_id agent_id)
      (fun e => match e with RegistrationError _ _ _ => ret tt | _ => raise e end) w
    = (Ok tt, w')
    /\ s3 w' = s3 w /\ table w' = table w.
Proof.
  rewrite gateway_deregister_eq. eexists. split; [reflexivity|].
  destruct (script w) as [|[msg|] sc]; by split.
Qed.

Lemma repository_delete_frame (X : Externals) (tool_id : string) (w : world) :
  exists w',
    s3 w' = s3 w
    /\ ((ToolRepository.delete X tool_id w = (Ok tt, w')
         /\ table w' = delete tool_id (table w))
        \/ exists e, ToolRepository.delete X tool_id w = (Raise e, w')).
Proof.
  rewrite repository_delete_eq.
  destruct (script w) as [|[msg|] sc]; eexists; (split; [|eauto]); reflexivity.
Qed.

Lemma find_by_code_hash_frame (X : Externals) (code_hash : string) (w : world) :
  exists w',
    s3 w' = s3 w
    /\ (ToolRepository.find_by_code_hash X code_hash w
        = (Ok (head (matching_items (table w) code_hash)), w')
        \/ exists e, ToolRepository.find_by_code_hash X code_hash w = (Raise e, w')).
Proof.
  rewrite find_by_code_hash_eq. exists (advance w). split; [reflexivity|].
  destruct (script w) as [|[msg|] sc]; eauto.
Qed.

Lemma reraise_known_world {A : Type} (known : exn -> bool) (what : string)
      (tool_id : option string) (agent_id : string) (m : M A) (w : world) :
  snd (ToolLifecycleManager.reraise_known known what tool_id agent_id m w) = snd (m w).
Proof.
  unfold ToolLifecycleManager.reraise_known, try_except.
  destruct (m w) as [[a|e] w']; [reflexivity|]. by destruct (known e).
Qed.

Lemma deregister_safety
      (X : Externals) (tool_id agent_id code_hash : string)
      (record : ToolRecord.t) (w : world)
      (Hkeyed : table_keyed w)
      (Hstored : table w !! tool_id = Some record)
      (Hhash : ToolRecord.code_hash record = Some code_hash)
      (other : string) (Hother : other <> tool_id)
      (Href : references w code_hash other) :
  s3 (snd (ToolLifecycleManager.deregister_tool X tool_id agent_id true w)) = s3 w.
Proof.
  unfold ToolLifecycleManager.deregister_tool. rewrite reraise_known_world.
  destruct Href as (other_record & Hother_stored & Hother_hash).
  destruct (get_by_id_frame X tool_id w) as (w1 & (Hs1 & Ht1 & _) & [Hget | [e Hget]]);
    unfold bind at 1; rewrite Hget; [|by cbn].
  rewrite Hstored.
  destruct (String.eqb (ToolRecord.agent_id record) agent_id); cbn [negb]; [|by cbn].
  destruct (gateway_deregister_frame tool_id agent_id w1) as (w2 & Hgw & Hs2 & Ht2).
  unfold bind at 1. rewrite Hgw.
  destruct (repository_delete_frame X tool_id w2) as (w3 & Hs3 & [[Hdel Ht3] | [e Hdel]]);
    unfold bind at 1; rewrite Hdel; [|cbn; congruence].
  rewrite Hhash.
  destruct (Text.truthy code_hash); [|cbn; congruence].
  destruct (find_by_code_hash_frame X code_hash w3) as (w4 & Hs4 & [Hfind | [e Hfind]]);
    unfold bind; rewrite Hfind; [|cbn; congruence].
  destruct (head_matching_other (table w) code_hash tool_id other other_record)
    as (item & Hhead & Hneq); auto.
  rewrite Ht3, Ht2, Ht1, Hhead, Hneq. cbn. congruence.
Qed.

Lemma deregister_run
      (X : Externals) (tool_id agent_id code_hash : string)
      (record : ToolRecord.t) (w : world) :
  table_keyed w ->
  script w = [] ->
  table w !! tool_id = Some record ->
  ToolRecord.agent_id record = agent_id ->
  ToolRecord.code_hash record = Some code_hash ->
  Text.truthy code_hash = true ->
  ToolLifecycleManager.deregister_tool X tool_id agent_id true w
  = (Ok tt,
     mk_world
       (match head (matching_items (delete tool_id (table w)) code_hash) with
        | None =>
            delete (ArtifactStorage.get_code_key code_hash (ToolRecord.language record))
                   (delete (ArtifactStorage.get_artifact_key code_hash) (s3 w))
        | Some _ => s3 w
        end)
       (delete tool_id (table w))
       (gateway w ++ [Unpublish tool_id agent_id])
       []).
Proof.
  intros Hkeyed Hscript Hstored Hagent Hhash Htruthy.
  destruct w as [b t g sc]. cbn in Hscript, Hstored. subst sc.
  unfold ToolLifecycleManager.deregister_tool, ToolLifecycleManager.reraise_known.
  unfold try_except at 1. unfold bind at 1. rewrite get_by_id_eq.
  cbn [script table advance s3 gateway tail]. rewrite Hstored.
  assert (Heqb : String.eqb (ToolRecord.agent_id record) agent_id = true)
    by (by apply String.eqb_eq).
  rewrite Heqb. cbn [negb].
  unfold bind at 1. rewrite gateway_deregister_eq.
  cbn [script table advance s3 gateway tail].
  unfold bind at 1. rewrite repository_delete_eq.
  cbn [script table advance s3 gateway tail].
  rewrite Hhash, Htruthy.
  unfold bind at 1. rewrite find_by_code_hash_eq.
  cbn [script table advance s3 gateway tail].
  destruct (head (matching_items (delete tool_id t) code_hash)) as [item|] eqn:Hhead.
  - assert (Hneq : String.eqb (ToolRecord.tool_id item) tool_id = false).
    { apply String.eqb_neq.
      assert (Hin : item ∈ matching_items (delete tool_id t) code_hash).
      { destruct (matching_items (delete tool_id t) code_hash); [discriminate|].
        cbn in Hhead. inversion Hhead; subst. apply list_elem_of_here. }
      apply matching_items_elem in Hin as (_ & key & Hkey).
      apply lookup_delete_Some in Hkey as [Hne Hkey].
      apply (Hkeyed key item) in Hkey. congruence. }
    rewrite Hneq. reflexivity.
  - reflexivity.
Qed.

Lemma deregister_each_gone (X : Externals) (code_hash language : string)
      (tools : list (string * string)) (w : world) :
  tools <> [] ->
  NoDup tools.*1 ->
  table_keyed w ->
  script w = [] ->
  Text.truthy code_hash = true ->
  Forall (owned_reference w code_hash language) tools ->
  (forall key, references w code_hash key -> key ∈ tools.*1) ->
  exists w', deregister_each X tools w = (Ok tt, w')
             /\ artifact_gone w' code_hash language.
Proof.
  revert w. induction tools as [|[tool_id agent_id] rest IH];
    intros w Hne Hnodup Hkeyed Hscript Htruthy Howned Hall; [done|].
  apply Forall_cons in Howned as [(record & Hstored & Hagent & Hhash & Hlang) Howned].
  cbn in Hstored, Hagent. cbn [fmap list_fmap fst] in Hnodup, Hall.
  apply NoDup_cons in Hnodup as [Hfresh Hnodup].
  cbn [deregister_each]. unfold bind.
  rewrite (deregister_run X tool_id agent_id code_hash record w) by assumption.
  set (w1 := mk_world _ _ _ _).
  destruct (decide (rest = [])) as [->|Hrest].
  - exists w1. split; [reflexivity|].
    assert (Hhead : head (matching_items (delete tool_id (table w)) code_hash) = None).
    { apply head_matching_none. intros other record' Hother Hrec Hh.
      assert (Hin : other ∈ [tool_id]).
      { apply Hall. by exists record'. }
      apply list_elem_of_singleton in Hin. done. }
    subst w1. rewrite Hhead, Hlang. unfold artifact_gone. cbn [s3]. split.
    + rewrite lookup_delete. case_decide; [done | apply lookup_delete_eq].
    + apply lookup_delete_eq.
  - apply IH; try done.
    + intros key r Hkey. subst w1. cbn in Hkey.
      apply lookup_delete_Some in Hkey as [_ Hkey]. by apply Hkeyed.
    + eapply Forall_impl; [|exact (λ x H, H)].
      apply Forall_forall. intros [id' agent'] Hin.
      pose proof (proj1 (Forall_forall _ _) Howned _ Hin)
        as (r & Hr & Ha & Hh & Hl).
      exists r. subst w1. cbn in *. repeat split; try done.
      rewrite lookup_delete_ne; [done|].
      intros ->. apply Hfresh. apply list_elem_of_fmap. by exists (id', agent').
    + intros key (r & Hr & Hh). subst w1. cbn in Hr.
      apply lookup_delete_Some in Hr as [Hkne Hr].
      assert (Hin : key ∈ tool_id :: rest.*1).
      { apply Hall. by exists r. }
      apply elem_of_cons in Hin as [->|Hin]; [done | exact Hin].
Qed.

(** C5.  Deregistering a tool with delete_artifact=true leaves the bucket
    as it is, whatever remote calls fail, as long as another record
    references the same content hash.  When no remote call fails and the
    tool, deregistered by its owner, is the only record that references the
    hash, the call succeeds and both the metadata document and the code blob
    of the artifact are gone.  Hence deregistering with delete, one after
    the other, every tool that references a hash leaves the artifact gone. *)
Theorem shared_artifact_deletion (X : Externals) (code_hash language : string) :
  (forall (tool_id agent_id other : string) (record : ToolRecord.t) (w : world),
      table_keyed w ->
      table w !! tool_id = Some record ->
      ToolRecord.code_hash record = Some code_hash ->
      other <> tool_id ->
      references w code_hash other ->
      s3 (snd (ToolLifecycleManager.deregister_tool X tool_id agent_id true w)) = s3 w)
  /\ (forall (tool_id agent_id : string) (w : world),
         table_keyed w ->
         script w = [] ->
         Text.truthy code_hash = true ->
         owned_reference w code_hash language (tool_id, agent_id) ->
         (forall other, other <> tool_id -> ~ references w code_hash other) ->
         exists w',
           ToolLifecycleManager.deregister_tool X tool_id agent_id true w = (Ok tt, w')
           /\ table w' = delete tool_id (table w)
           /\ artifact_gone w' code_hash language)
  /\ (forall (tools : list (string * string)) (w : world),
         tools <> [] ->
         NoDup tools.*1 ->
         table_keyed w ->
         script w = [] ->
         Text.truthy code_hash = true ->
         Forall (owned_reference w code_hash language) tools ->
         (forall key, references w code_hash key -> key ∈ tools.*1) ->
         exists w', deregister_each X tools w = (Ok tt, w')
                    /\ artifact_gone w' code_hash language).
Proof.
  split; [|split].
  - intros tool_id agent_id other record w Hkeyed Hstored Hhash Hother Href.
    by apply (deregister_safety X tool_id agent_id code_hash record w Hkeyed Hstored
                Hhash other).
  - intros tool_id agent_id w Hkeyed Hscript Htruthy
           (record & Hstored & Hagent & Hhash & Hlang) Hsole.
    cbn in Hstored, Hagent.
    rewrite (deregister_run X tool_id agent_id code_hash record w) by assumption.
    eexists. split; [reflexivity|]. split; [reflexivity|].
    assert (Hhead : head (matching_items (delete tool_id (table w)) code_hash) = None).
    { apply head_matching_none. intros other record' Hother Hrec Hh.
      apply (Hsole other Hother). by exists record'. }
    rewrite Hhead, Hlang. unfold artifact_gone. cbn [s3]. split.
    + rewrite lookup_delete. case_decide; [done | apply lookup_delete_eq].
    + apply lookup_delete_eq.
  - intros tools w. apply deregister_each_gone.
Qed.

Lemma shared_world_keyed : table_keyed shared_world.
Proof.
  change (map_Forall (fun key record => ToolRecord.tool_id record = key)
                     (table shared_world)).
  apply (bool_decide_unpack _). vm_compute. exact I.
Qed.

Lemma shared_world_references (key : string) :
  references shared_world countdown_hash key
  -> key ∈ [("tool-A"%string, "alice"%string); ("tool-B"%string, "bob"%string)].*1.
Proof.
  intros (record & Hrecord & Hhash). revert key record Hrecord Hhash.
  change (map_Forall
            (fun key record =>
               ToolRecord.code_hash record = Some countdown_hash ->
               key ∈ [("tool-A"%string, "alice"%string);
                      ("tool-B"%string, "bob"%string)].*1)
            (table shared_world)).
  apply (bool_decide_unpack _). vm_compute. exact I.
Qed.

Lemma shared_artifact_deletion_witness :
  s3 (snd (ToolLifecycleManager.deregister_tool sample_externals
             "tool-A" "alice" true shared_world))
  = s3 shared_world
  /\ exists w',
       deregister_each sample_externals
         [("tool-A"%string, "alice"%string); ("tool-B"%string, "bob"%string)]
         shared_world
       = (Ok tt, w')
       /\ artifact_gone w' countdown_hash "python".
Proof.
  destruct (shared_artifact_deletion sample_externals countdown_hash "python")
    as (Hshared & _ & Hevery).
  split.
  - apply (Hshared "tool-A"%string "alice"%string "tool-B"%string
             (alice_record "tool-A") shared_world).
    + exact shared_world_keyed.
    + reflexivity.
    + reflexivity.
    + discriminate.
    + exists (bob_record "tool-B"). split; reflexivity.
  - apply Hevery.
    + discriminate.
    + apply (bool_decide_unpack _). vm_compute. exact I.
    + exact shared_world_keyed.
    + reflexivity.
    + reflexivity.
    + repeat constructor.
      * exists (alice_record "tool-A"). repeat split; reflexivity.
      * exists (bob_record "tool-B"). repeat split; reflexivity.
    + exact shared_world_references.
Defined.

(** ** The recursive example under the two policies *)

Lemma get_cached_validation_miss (code language : string) (w : world) :
  s3 w !! ArtifactStorage.get_artifact_key
            (ArtifactStorage.compute_code_hash code language) = None ->
  exists w1, ValidationCache.get_cached_validation code language w = (Ok None, w1)
             /\ same_stores w w1.
Proof.
  intros Hmiss.
  unfold ValidationCache.get_cached_validation, try_except, bind,
    ArtifactStorage.artifact_exists, ArtifactStorage.wrap, try_except,
    S3Client.object_exists, S3Client.client_error, bind, remote, get_s3, ret, raise.
  destruct w as [b t g sc]. cbn [s3 script table gateway] in *.
  destruct sc as [|[msg|] sc]; cbn [s3 script table gateway]; rewrite ?Hmiss; cbn;
    eexists; (split; [reflexivity | by repeat split]).
Qed.

Lemma validate_fresh_outcome (self : ValidationService.t) (X : Externals)
      (code language : string) (dependencies : option (list string)) (w : world) :
  let r := CodeValidator.validate_safe X code language in
  let violations := PolicyEvaluator.evaluate (ValidationService.policy self) r in
  PolicyEvaluator.has_critical_violations violations = false ->
  ValidationResult.is_valid r = true ->
  exists w', ValidationService.validate_fresh self X code language dependencies w
             = (Ok (r, violations), w').
Proof.
  intros r violations Hcrit Hvalid.
  unfold ValidationService.validate_fresh. fold r. fold violations.
  rewrite Hcrit, Hvalid. cbn [orb negb]. unfold bind at 1.
  destruct (ValidationService.enable_cache self); cbn [andb].
  - destruct (try_except_swallow
                (bind (ValidationCache.cache_validation_result X code language r
                         dependencies) (fun _ => ret tt)) tt w)
      as ([] & w' & Hs).
    rewrite Hs. by exists w'.
  - by exists w.
Qed.

Lemma validate_code_miss (self : ValidationService.t) (X : Externals)
      (code language : string) (dependencies : option (list string)) (w : world) :
  ValidationService.enable_cache self = false
  \/ s3 w !! ArtifactStorage.get_artifact_key
               (ArtifactStorage.compute_code_hash code language) = None ->
  let r := CodeValidator.validate_safe X code language in
  let violations := PolicyEvaluator.evaluate (ValidationService.policy self) r in
  PolicyEvaluator.has_critical_violations violations = false ->
  ValidationResult.is_valid r = true ->
  exists w', ValidationService.validate_code self X code language true dependencies w
             = (Ok (r, violations), w').
Proof.
  intros Hmiss r violations Hcrit Hvalid.
  unfold ValidationService.validate_code.
  destruct (ValidationService.enable_cache self) eqn:Hcache; cbn [andb].
  - destruct Hmiss as [Hoff | Hmiss]; [discriminate|].
    destruct (get_cached_validation_miss code language w Hmiss) as (w1 & Hget & _).
    unfold bind. rewrite Hget.
    by apply validate_fresh_outcome.
  - by apply validate_fresh_outcome.
Qed.

Lemma bandit_never_critical (out : bandit_outcome) :
  existsb (fun issue => is_critical (SecurityIssue.severity issue))
          (fst (PythonAnalyzer.run_bandit_scan out)) = false.
Proof.
  destruct out as [results| | | |msg]; try reflexivity. cbn.
  induction results as [|issue results IH]; [reflexivity|]. cbn. rewrite IH.
  unfold PythonAnalyzer.bandit_severity.
  repeat match goal with |- context [String.eqb ?a ?b] => destruct (String.eqb a b) end;
    reflexivity.
Qed.

Lemma violation_of_issue_not_resource (issue : SecurityIssue.t) :
  PolicyViolation.rule_id (PolicyEvaluator.violation_of_issue issue) <> "RES001"%string.
Proof.
  unfold PolicyEvaluator.violation_of_issue, PolicyEvaluator.map_issue_to_violation_type.
  cbn. repeat match goal with |- context [String.eqb ?a ?b] => destruct (String.eqb a b) end;
    discriminate.
Qed.

Lemma violations_of_issues_critical (issues : list SecurityIssue.t) :
  PolicyEvaluator.has_critical_violations
    (map PolicyEvaluator.violation_of_issue issues)
  = existsb (fun issue => is_critical (SecurityIssue.severity issue)) issues.
Proof.
  unfold PolicyEvaluator.has_critical_violations.
  induction issues as [|issue issues IH]; [reflexivity|]. cbn. rewrite IH. f_equal.
  by destruct (SecurityIssue.severity issue).
Qed.

Lemma countdown_estimate :
  PythonAnalyzer.estimate_resources countdown_tree
  = ResourceEstimate.mk 76 (cpu_formula 6 false true) 6 false true 8.
Proof. vm_compute. reflexivity. Qed.

Lemma countdown_analysis (X : Externals) :
  ast_parse X countdown_source = Parsed countdown_tree ->
  let r := CodeValidator.validate_safe X countdown_source "python" in
  ValidationResult.is_valid r = true
  /\ ValidationResult.security_issues r
     = fst (PythonAnalyzer.run_bandit_scan (bandit X countdown_source))
  /\ ValidationResult.resource_estimate r
     = Some (PythonAnalyzer.estimate_resources countdown_tree).
Proof.
  intros Hparse.
  assert (Hanalyze :
            PythonAnalyzer.analyze (ast_parse X) (bandit X) countdown_source
            = ValidationResult.mk true "python"
                (SHA256.hexdigest (Text.utf8 countdown_source)) []
                (snd (PythonAnalyzer.run_bandit_scan (bandit X countdown_source)))
                (fst (PythonAnalyzer.run_bandit_scan (bandit X countdown_source)))
                (Some (PythonAnalyzer.estimate_resources countdown_tree)) None).
  { unfold PythonAnalyzer.analyze. rewrite Hparse. cbn zeta.
    assert (Hast : PythonAnalyzer.analyze_ast countdown_tree countdown_source = [])
      by (vm_compute; reflexivity).
    rewrite Hast. cbn [app length Nat.eqb andb].
    by rewrite bandit_never_critical. }
  unfold CodeValidator.validate_safe, CodeValidator.validate.
  assert (Hblank : Text.blank countdown_source = false) by (vm_compute; reflexivity).
  rewrite Hblank.
  change (ToolDefinition.supported_language "python") with true. cbn [negb].
  unfold CodeValidator.run_analyzer.
  change (String.eqb "python" "python") with true. cbv iota.
  rewrite Hanalyze. cbn. repeat split.
Qed.

(** The claim as stated fails: under the default policy the validation call
    on the countdown source does not raise. *)
Lemma recursion_not_rejected_by_default :
  ~ exists e,
      fst (ValidationService.validate_code default_service sample_externals
             countdown_source "python" true None empty_world)
      = Raise e.
Proof. intros [e He]. vm_compute in He. discriminate He. Qed.

(** C3 (as amended).  Submitting [def f(n): return f(n-1)] afresh (caching
    off, or no artifact cached for its hash) is accepted under both canonical
    policies: [validate_code] returns a valid result and no critical
    violation.  Under the default policy the returned violations begin with
    the RES001 resource-limit violation of severity high that cites
    recursion, and contain no other RES001 violation; under the permissive
    policy, which allows recursion, they contain no RES001 violation at all.
    The two policies diverge in the violations reported, not in
    acceptance. *)
Theorem recursion_policy_divergence
        (X : Externals) (enable_cache : bool) (w : world)
        (Hparse : ast_parse X countdown_source = Parsed countdown_tree)
        (Hfresh :
           enable_cache = false
           \/ s3 w !! ArtifactStorage.get_artifact_key
                        (ArtifactStorage.compute_code_hash countdown_source "python")
              = None) :
  (exists r violations w',
      ValidationService.validate_code
        (ValidationService.mk SecurityPolicyManager.get_default_policy enable_cache)
        X countdown_source "python" true None w
      = (Ok (r, violations), w')
      /\ ValidationResult.is_valid r = true
      /\ PolicyEvaluator.has_critical_violations violations = false
      /\ exists others,
           violations = PolicyEvaluator.recursion_violation :: others
           /\ Forall (fun v => PolicyViolation.rule_id v <> "RES001"%string) others)
  /\ (exists r violations w',
         ValidationService.validate_code
           (ValidationService.mk SecurityPolicyManager.get_permissive_policy enable_cache)
           X countdown_source "python" true None w
         = (Ok (r, violations), w')
         /\ ValidationResult.is_valid r = true
         /\ Forall (fun v => PolicyViolation.rule_id v <> "RES001"%string) violations).
Proof.
  destruct (countdown_analysis X Hparse) as (Hvalid & Hissues & Hest).
  set (r := CodeValidator.validate_safe X countdown_source "python") in *.
  set (issues := fst (PythonAnalyzer.run_bandit_scan (bandit X countdown_source))) in *.
  assert (Hothers : Forall (fun v => PolicyViolation.rule_id v <> "RES001"%string)
                           (map PolicyEvaluator.violation_of_issue issues)).
  { apply Forall_forall. intros v Hv. apply list_elem_of_In in Hv.
    apply in_map_iff in Hv as (issue & <- & _). apply violation_of_issue_not_resource. }
  assert (Hquiet : PolicyEvaluator.has_critical_violations
                     (map PolicyEvaluator.violation_of_issue issues) = false).
  { rewrite violations_of_issues_critical. apply bandit_never_critical. }
  assert (Hdefault :
            PolicyEvaluator.evaluate SecurityPolicyManager.get_default_policy r
            = PolicyEvaluator.recursion_violation
              :: map PolicyEvaluator.violation_of_issue issues).
  { rewrite evaluate_unfolded. unfold fired_for. rewrite Hest, Hissues, countdown_estimate.
    reflexivity. }
  assert (Hpermissive :
            PolicyEvaluator.evaluate SecurityPolicyManager.get_permissive_policy r
            = map PolicyEvaluator.violation_of_issue issues).
  { rewrite evaluate_unfolded. unfold fired_for. rewrite Hest, Hissues, countdown_estimate.
    reflexivity. }
  split.
  - destruct (validate_code_miss
                (ValidationService.mk SecurityPolicyManager.get_default_policy enable_cache)
                X countdown_source "python" None w) as (w' & Hrun).
    + exact Hfresh.
    + cbn [ValidationService.policy]. fold r. rewrite Hdefault. exact Hquiet.
    + exact Hvalid.
    + cbn [ValidationService.policy] in Hrun. fold r in Hrun. rewrite Hdefault in Hrun.
      exists r, (PolicyEvaluator.recursion_violation
                 :: map PolicyEvaluator.violation_of_issue issues), w'.
      repeat split; try assumption. by eexists.
  - destruct (validate_code_miss
                (ValidationService.mk SecurityPolicyManager.get_permissive_policy
                                      enable_cache)
                X countdown_source "python" None w) as (w' & Hrun).
    + exact Hfresh.
    + cbn [ValidationService.policy]. fold r. rewrite Hpermissive. exact Hquiet.
    + exact Hvalid.
    + cbn [ValidationService.policy] in Hrun. fold r in Hrun.
      rewrite Hpermissive in Hrun.
      exists r, (map PolicyEvaluator.violation_of_issue issues), w'.
      repeat split; assumption.
Qed.

Lemma recursion_policy_divergence_witness :
  exists r violations w',
    ValidationService.validate_code
      (ValidationService.mk SecurityPolicyManager.get_default_policy true)
      sample_externals countdown_source "python" true None empty_world
    = (Ok (r, violations), w')
    /\ ValidationResult.is_valid r = true
    /\ PolicyEvaluator.has_critical_violations violations = false
    /\ exists others,
         violations = PolicyEvaluator.recursion_violation :: others
         /\ Forall (fun v => PolicyViolation.rule_id v <> "RES001"%string) others.
Proof.
  apply (recursion_policy_divergence sample_externals true empty_world).
  - reflexivity.
  - right. apply lookup_empty.
Defined.

(** ** Registration on a cache miss *)

Lemma bucket_only_ret {A : Type} (a : A) : bucket_only (ret a).
Proof. by intros w. Qed.

Lemma bucket_only_raise {A : Type} (e : exn) : bucket_only (raise (A := A) e).
Proof. by intros w. Qed.

Lemma bucket_only_bind {A B : Type} (m : M A) (k : A -> M B) :
  bucket_only m -> (forall a, bucket_only (k a)) -> bucket_only (bind m k).
Proof.
  intros Hm Hk w. unfold bind. specialize (Hm w).
  destruct (m w) as [[a|e] w1]; cbn in *; [|exact Hm].
  destruct (Hk a w1) as [Ht Hg]. destruct Hm as [Ht1 Hg1]. split; congruence.
Qed.

Lemma bucket_only_try {A : Type} (m : M A) (h : exn -> M A) :
  bucket_only m -> (forall e, bucket_only (h e)) -> bucket_only (try_except m h).
Proof.
  intros Hm Hh w. unfold try_except. specialize (Hm w).
  destruct (m w) as [[a|e] w1]; cbn in *; [exact Hm|].
  destruct (Hh e w1) as [Ht Hg]. destruct Hm as [Ht1 Hg1]. split; congruence.
Qed.

Lemma bucket_only_remote : bucket_only remote.
Proof. intros [b t g [|f sc]]; by cbn. Qed.

Lemma bucket_only_set_s3 (f : gmap string s3_object -> gmap string s3_object) :
  bucket_only (set_s3 f).
Proof. by intros w. Qed.

Lemma bucket_only_get_s3 : bucket_only get_s3.
Proof. by intros w. Qed.

Lemma bucket_only_lift {A : Type} (r : exn + A) : bucket_only (lift r).
Proof. destruct r; by intros w. Qed.

Ltac bucket_step :=
  match goal with
  | |- bucket_only (bind _ _) => apply bucket_only_bind; [|intros ?]
  | |- bucket_only (try_except _ _) => apply bucket_only_try; [|intros ?]
  | |- bucket_only (ret _) => apply bucket_only_ret
  | |- bucket_only (raise _) => apply bucket_only_raise
  | |- bucket_only remote => apply bucket_only_remote
  | |- bucket_only (set_s3 _) => apply bucket_only_set_s3
  | |- bucket_only get_s3 => apply bucket_only_get_s3
  | |- bucket_only (lift _) => apply bucket_only_lift
  | |- bucket_only (match ?x with _ => _ end) => destruct x
  | |- bucket_only (if ?x then _ else _) => destruct x
  | |- bucket_only _ => assumption
  end.

Lemma bucket_only_put_object (key : string) (body : s3_object) :
  bucket_only (S3Client.put_object key body).
Proof. unfold S3Client.put_object, S3Client.client_error. repeat bucket_step. Qed.

Lemma bucket_only_get_object (key : string) : bucket_only (S3Client.get_object key).
Proof. unfold S3Client.get_object, S3Client.client_error. repeat bucket_step. Qed.

Lemma bucket_only_object_exists (key : string) : bucket_only (S3Client.object_exists key).
Proof. unfold S3Client.object_exists, S3Client.client_error. repeat bucket_step. Qed.

Lemma bucket_only_put_json (key : string) (data : s3_object) :
  bucket_only (S3Client.put_json key data).
Proof.
  pose proof (bucket_only_put_object key data).
  unfold S3Client.put_json. repeat bucket_step.
Qed.

Lemma bucket_only_get_json (key : string) : bucket_only (S3Client.get_json key).
Proof.
  pose proof (bucket_only_get_object key).
  unfold S3Client.get_json. repeat bucket_step.
Qed.

Lemma bucket_only_store_artifact (artifact : CachedToolArtifact.t) :
  bucket_only (ArtifactStorage.store_artifact artifact).
Proof.
  pose proof bucket_only_put_json. pose proof bucket_only_put_object.
  unfold ArtifactStorage.store_artifact, ArtifactStorage.wrap.
  repeat first [bucket_step | apply bucket_only_put_json | apply bucket_only_put_object].
Qed.

Lemma bucket_only_retrieve_artifact (code_hash : string) :
  bucket_only (ArtifactStorage.retrieve_artifact code_hash).
Proof.
  unfold ArtifactStorage.retrieve_artifact, ArtifactStorage.wrap.
  repeat first [bucket_step | apply bucket_only_get_json].
Qed.

Lemma bucket_only_artifact_exists (code_hash : string) :
  bucket_only (ArtifactStorage.artifact_exists code_hash).
Proof.
  unfold ArtifactStorage.artifact_exists, ArtifactStorage.wrap.
  repeat first [bucket_step | apply bucket_only_object_exists].
Qed.

Lemma bucket_only_update_usage_count (code_hash : string) :
  bucket_only (ArtifactStorage.update_usage_count code_hash).
Proof.
  unfold ArtifactStorage.update_usage_count, ArtifactStorage.wrap.
  repeat first [bucket_step | apply bucket_only_retrieve_artifact
                | apply bucket_only_store_artifact].
Qed.

Lemma bucket_only_get_cached_validation (code language : string) :
  bucket_only (ValidationCache.get_cached_validation code language).
Proof.
  unfold ValidationCache.get_cached_validation.
  repeat first [bucket_step | apply bucket_only_retrieve_artifact
                | apply bucket_only_artifact_exists].
Qed.

Lemma bucket_only_cache_validation_result (X : Externals) (code language : string)
      (r : ValidationResult.t) (dependencies : option (list string)) :
  bucket_only (ValidationCache.cache_validation_result X code language r dependencies).
Proof.
  unfold ValidationCache.cache_validation_result, ValidationCache.log_validation_audit,
    ArtifactStorage.wrap.
  repeat first [bucket_step | apply bucket_only_store_artifact
                | apply bucket_only_put_json].
Qed.

Lemma bucket_only_validate_code (self : ValidationService.t) (X : Externals)
      (code language : string) (use_cache : bool) (dependencies : option (list string)) :
  bucket_only (ValidationService.validate_code self X code language use_cache dependencies).
Proof.
  unfold ValidationService.validate_code, ValidationService.validate_fresh.
  repeat first [bucket_step | apply bucket_only_get_cached_validation
                | apply bucket_only_update_usage_count
                | apply bucket_only_cache_validation_result].
Qed.

Lemma retrieve_artifact_miss (code_hash : string) (w : world) :
  s3 w !! ArtifactStorage.get_artifact_key code_hash = None ->
  next_call_succeeds w ->
  ArtifactStorage.retrieve_artifact code_hash w = (Ok None, advance w).
Proof.
  intros Hmiss Hnext.
  unfold ArtifactStorage.retrieve_artifact, ArtifactStorage.wrap, S3Client.get_json,
    S3Client.get_object, try_except, bind, remote, get_s3, ret.
  destruct w as [b t g sc]. cbn [s3 script table gateway] in *.
  unfold next_call_succeeds in Hnext. cbn in Hnext.
  destruct sc as [|[msg|] sc]; try contradiction; cbn; rewrite Hmiss; reflexivity.
Qed.

(** C1 (what the code does).  Take a tool definition that passes structure
    validation, whose content hash is not in the artifact cache, and whose
    source the validation service accepts.  [register_tool] then reads
    [is_valid] from the pair returned by [validate_code]: it raises a
    RegistrationError, persists no tool record and publishes nothing. *)
Theorem register_tool_cache_miss_raises
        (service : ValidationService.t) (X : Externals)
        (tool_definition : ToolDefinition.t) (agent_id uuid : string)
        (skip_cache : bool) (w w1 : world)
        (accepted : ValidationResult.t * list PolicyViolation.t)
        (Hstructure : ToolDefinition.validate_structure tool_definition = [])
        (Hmiss : s3 w !! ArtifactStorage.get_artifact_key
                          (ArtifactStorage.compute_code_hash
                             (ToolDefinition.code tool_definition)
                             (ToolDefinition.language tool_definition)) = None)
        (Hlookup : next_call_succeeds w)
        (Haccepted :
           ValidationService.validate_code service X
             (ToolDefinition.code tool_definition)
             (ToolDefinition.language tool_definition) true None
             (if skip_cache then w else advance w)
           = (Ok accepted, w1)) :
  exists w',
    ToolLifecycleManager.register_tool service X tool_definition agent_id
      skip_cache uuid w
    = (Raise (tuple_error agent_id), w')
    /\ table w' = table w
    /\ gateway w' = gateway w.
Proof.
  exists w1. split.
  - unfold ToolLifecycleManager.register_tool, ToolLifecycleManager.reraise_known,
      ToolLifecycleManager.persist_record.
    rewrite Hstructure. unfold try_except, bind at 1. unfold bind at 1.
    destruct skip_cache; cbn [negb].
    + unfold ret at 1. unfold bind at 1.
      unfold ToolLifecycleManager.validate_and_store. unfold bind at 1. unfold bind at 1.
      rewrite Haccepted. reflexivity.
    + rewrite (retrieve_artifact_miss _ w Hmiss Hlookup). unfold bind at 1.
      unfold ToolLifecycleManager.validate_and_store. unfold bind at 1. unfold bind at 1.
      rewrite Haccepted. reflexivity.
  - pose proof (bucket_only_validate_code service X
                  (ToolDefinition.code tool_definition)
                  (ToolDefinition.language tool_definition) true None
                  (if skip_cache then w else advance w)) as [Ht Hg].
    rewrite Haccepted in Ht, Hg. cbn in Ht, Hg.
    by destruct skip_cache.
Qed.

Lemma register_tool_cache_miss_raises_witness :
  exists w',
    ToolLifecycleManager.register_tool default_service sample_externals
      countdown_tool "alice" false "tool-1" empty_world
    = (Raise (tuple_error "alice"), w')
    /\ table w' = table empty_world
    /\ gateway w' = gateway empty_world.
Proof.
  apply (register_tool_cache_miss_raises default_service sample_externals
           countdown_tool "alice" "tool-1" false empty_world
           (snd countdown_validation) countdown_accepted).
  - vm_compute. reflexivity.
  - apply lookup_empty.
  - exact I.
  - vm_compute. reflexivity.
Defined.
